(** * ha-switchos: the Mikrotik SwitchOS sensor integration

    A shallow embedding of [custom_components/ha_switchos] ([const.py],
    [__init__.py], [sensor.py]) together with the properties its
    specification states about it.

    Python objects are attribute maps ([gmap string value]), exceptions are
    the left summand of [result], and code that runs against the host (the
    config entry, the entity platform) threads the host state through a small
    state-and-exception monad. *)

From Stdlib Require Import ZArith Lia List Ascii String DecimalString DecimalZ.
From stdpp Require Import base gmap strings list.

Set Warnings "-register-all".

Local Open Scope string_scope.
Local Open Scope Z_scope.
Local Open Scope list_scope.

(** ** Python values *)

Module Py.

(** The values a telemetry snapshot holds: [None], numbers, strings,
    sequences and nested objects.  A float is carried as its 64-bit
    pattern; nothing here computes on it. *)
Inductive value : Type :=
| VNone
| VBool (b : bool)
| VInt (z : Z)
| VFloat (bits : Z)
| VStr (s : string)
| VList (items : list value)
| VTuple (items : list value)
| VObj (attrs : gmap string value).

Inductive fetch_error : Type := ConnectError | AuthError | ParseError.

Inductive exn : Type :=
| AttributeError (name : string)
| TypeError
| IndexError
| UpdateFailed (e : fetch_error).

Definition result (A : Type) : Type := (exn + A)%type.

Definition ok {A} (a : A) : result A := inr a.
Definition raise {A} (e : exn) : result A := inl e.

(** The instance attributes of a value.  Only objects carry named fields;
    [None], numbers, strings and sequences expose nothing but the methods
    of their type, and no descriptor of this integration names one. *)
Definition attr (v : value) (name : string) : option value :=
  match v with
  | VObj attrs => attrs !! name
  | _ => None
  end.

(** [getattr(v, name)] *)
Definition getattr (v : value) (name : string) : result value :=
  match attr v name with
  | Some x => ok x
  | None => raise (AttributeError name)
  end.

(** [getattr(v, name, default)] *)
Definition getattr_default (v : value) (name : string) (default : value) : value :=
  match attr v name with
  | Some x => x
  | None => default
  end.

(** [v is not None] *)
Definition is_not_None (v : value) : bool :=
  match v with
  | VNone => false
  | _ => true
  end.

(** [seq[i]] on a Python sequence of length [n]: indices [0 .. n-1] count
    from the front, [-n .. -1] from the back, anything else raises
    [IndexError]. *)
Definition seq_index {A} (l : list A) (i : Z) : result A :=
  let n := Z.of_nat (List.length l) in
  let j := if i <? 0 then i + n else i in
  if (0 <=? j) && (j <? n) then
    match nth_error l (Z.to_nat j) with
    | Some x => ok x
    | None => raise IndexError
    end
  else raise IndexError.

Definition chars (s : string) : list value :=
  List.map (fun c => VStr (String c EmptyString)) (list_ascii_of_string s).

(** [len(v)] *)
Definition len (v : value) : result Z :=
  match v with
  | VList l | VTuple l => ok (Z.of_nat (List.length l))
  | VStr s => ok (Z.of_nat (String.length s))
  | _ => raise TypeError
  end.

(** [v[i]] *)
Definition subscript (v : value) (i : Z) : result value :=
  match v with
  | VList l | VTuple l => seq_index l i
  | VStr s => seq_index (chars s) i
  | _ => raise TypeError
  end.

(** [str(z)] for an [int]. *)
Definition str_int (z : Z) : string := NilEmpty.string_of_int (Z.to_int z).

(** [f"{z:02d}"]: at least two characters, padded with zeros on the left;
    the sign counts towards the width. *)
Definition format_02d (z : Z) : string :=
  if (0 <=? z) && (z <? 10) then "0" +:+ str_int z else str_int z.

End Py.

(** ** Characters of a string *)

Module Str.

(** Every character of [s] satisfies [P]. *)
Fixpoint all_chars (P : ascii -> bool) (s : string) : bool :=
  match s with
  | EmptyString => true
  | String a rest => P a && all_chars P rest
  end.

(** What [str] of an [int] is made of: digits and the sign. *)
Definition is_int_char (a : ascii) : bool :=
  match a with
  | "0" | "1" | "2" | "3" | "4" | "5" | "6" | "7" | "8" | "9" | "-" => true
  | _ => false
  end%char.

End Str.

(** ** A state-and-exception monad

    [M S A] is a computation over a mutable object of type [S] that either
    returns an [A] or raises; what it wrote before raising stays written. *)

Definition M (S A : Type) : Type := S -> Py.result A * S.

Definition ret {S A} (a : A) : M S A := fun s => (Py.ok a, s).

Definition bind {S A B} (m : M S A) (k : A -> M S B) : M S B :=
  fun s =>
    match m s with
    | (inl e, s') => (inl e, s')
    | (inr a, s') => k a s'
    end.

Definition lift {S A} (r : Py.result A) : M S A := fun s => (r, s).

Definition get {S} : M S S := fun s => (Py.ok s, s).

Definition modify {S} (f : S -> S) : M S unit := fun s => (Py.ok tt, f s).

Notation "x <- m ;; k" := (bind m (fun x => k))
  (at level 100, m at next level, right associativity).
Notation "m ;;; k" := (bind m (fun _ => k))
  (at level 100, right associativity).

(** [for x in xs: body x] *)
Fixpoint for_each {S A} (xs : list A) (body : A -> M S unit) : M S unit :=
  match xs with
  | [] => ret tt
  | x :: rest => body x ;;; for_each rest body
  end.

(** ** const.py *)

Module Const.

Definition DOMAIN : string := "mikrotik_switchos".
Definition DEFAULT_NAME : string := "Mikrotik".
Definition ATTR_MANUFACTURER : string := "Mikrotik".

Definition DEFAULT_UPDATE_INTERVAL : Z := 10.

End Const.

(** ** The objects sensor.py receives

    [coordinator.py] and [port.py] are not among the sources; the records
    below carry exactly the attributes [__init__.py] and [sensor.py] read
    from them, typed as their annotations say. *)

Module Data.

(** Modelled from the spec: [port.py] is missing.  A port record carries
    its index in the per-port arrays ("indexed 0..N-1"), a Python [int],
    and its name. *)
Record Port : Type := { num : Z; name : string }.

(** Modelled from the spec: the declaration of [MikrotikSwitchOSData] is
    missing.  A snapshot is an object with one attribute per endpoint
    ("category") and the ordered sequence of port records. *)
Record MikrotikSwitchOSData : Type := {
  endpoints : gmap string Py.value;
  ports : list Port
}.

Definition port_value (p : Port) : Py.value :=
  Py.VObj (<["num" := Py.VInt (num p)]> (<["name" := Py.VStr (name p)]> ∅)).

(** The attributes of a snapshot object: [ports] and the endpoints. *)
Definition api_attr (api : MikrotikSwitchOSData) (attr_name : string) : option Py.value :=
  if String.eqb attr_name "ports" then Some (Py.VList (List.map port_value (ports api)))
  else endpoints api !! attr_name.

(** [getattr(api, name, None)] *)
Definition api_getattr_default (api : MikrotikSwitchOSData) (attr_name : string)
    (default : Py.value) : Py.value :=
  match api_attr api attr_name with
  | Some v => v
  | None => default
  end.

(** [getattr(api, name)], also written [api.name] *)
Definition api_getattr (api : MikrotikSwitchOSData) (attr_name : string) : Py.result Py.value :=
  match api_attr api attr_name with
  | Some v => Py.ok v
  | None => Py.raise (Py.AttributeError attr_name)
  end.

(** The coordinator object as the entity code sees it. *)
Record MikrotikSwitchOSCoordinator : Type := {
  serial_num : string;
  mac : string;
  model : string;
  identity : string;
  firmware : string;
  api : MikrotikSwitchOSData
}.

(** The coordinator after a refresh stored a new snapshot. *)
Definition with_api (c : MikrotikSwitchOSCoordinator) (new_api : MikrotikSwitchOSData)
    : MikrotikSwitchOSCoordinator :=
  {| serial_num := serial_num c; mac := mac c; model := model c;
     identity := identity c; firmware := firmware c; api := new_api |}.

End Data.

(** ** The host

    What the integration sees of the host application: the config entry's
    [runtime_data] slot, the platforms set up for the entry, the entities
    handed to [async_add_entities], and a journal of what happened in which
    order.  The host code itself is outside the repository; only the effects
    the integration relies on are kept. *)

Module Hass.
Import Data.

Inductive Platform : Type := SENSOR.

Inductive Event : Type :=
| FirstRefresh
| RuntimeDataAssigned
| PlatformSetup (p : Platform)
| EntitiesAdded (n : nat).

Record State (E : Type) : Type := {
  runtime_data : option MikrotikSwitchOSCoordinator;
  forwarded : list Platform;
  entities : list E;
  journal : list Event
}.
Arguments runtime_data {E}.
Arguments forwarded {E}.
Arguments entities {E}.
Arguments journal {E}.

(** A config entry nothing has been set up for yet. *)
Definition fresh {E} : State E :=
  {| runtime_data := None; forwarded := []; entities := []; journal := [] |}.

Definition log {E} (ev : Event) : M (State E) unit :=
  modify (fun h =>
    {| runtime_data := runtime_data h; forwarded := forwarded h;
       entities := entities h; journal := journal h ++ [ev] |}).

(** [config_entry.runtime_data]: an attribute that was never assigned
    raises. *)
Definition get_runtime_data {E} : M (State E) MikrotikSwitchOSCoordinator :=
  h <- get ;;
  match runtime_data h with
  | Some c => ret c
  | None => lift (Py.raise (Py.AttributeError "runtime_data"))
  end.

(** [config_entry.runtime_data = coordinator] *)
Definition set_runtime_data {E} (c : MikrotikSwitchOSCoordinator) : M (State E) unit :=
  modify (fun h =>
    {| runtime_data := Some c; forwarded := forwarded h;
       entities := entities h; journal := journal h ++ [RuntimeDataAssigned] |}).

(** [async_add_entities(new)] registers the entities with the platform. *)
Definition async_add_entities {E} (new : list E) : M (State E) unit :=
  modify (fun h =>
    {| runtime_data := runtime_data h; forwarded := forwarded h;
       entities := entities h ++ new;
       journal := journal h ++ [EntitiesAdded (List.length new)] |}).

Definition mark_forwarded {E} (p : Platform) : M (State E) unit :=
  modify (fun h =>
    {| runtime_data := runtime_data h; forwarded := forwarded h ++ [p];
       entities := entities h; journal := journal h ++ [PlatformSetup p] |}).

End Hass.

(** ** sensor.py *)

Module Sensor.
Import Data.

Inductive SensorDeviceClass : Type := TEMPERATURE | CURRENT | VOLTAGE | POWER.
Inductive SensorStateClass : Type := MEASUREMENT.
Inductive Unit : Type := CELSIUS | MILLIAMPERE | VOLT | WATT.

Record MikrotikSwitchOSEntityDescription : Type := {
  key : string;
  translation_key : string;
  device_class : SensorDeviceClass;
  state_class : SensorStateClass;
  native_unit_of_measurement : Unit;
  suggested_display_precision : Z;
  endpoint : string;
  property : string;
  enabled_by_default : option (MikrotikSwitchOSData -> Py.result bool)
}.

(** [lambda api: api.poe is not None] *)
Definition poe_is_not_None (a : MikrotikSwitchOSData) : Py.result bool :=
  match api_getattr a "poe" with
  | inl e => inl e
  | inr v => Py.ok (Py.is_not_None v)
  end.

Definition GLOBAL_SENSORS : list MikrotikSwitchOSEntityDescription := [
  {| key := "cpu_temperature"; translation_key := "cpu_temperature";
     device_class := TEMPERATURE; state_class := MEASUREMENT;
     native_unit_of_measurement := CELSIUS; suggested_display_precision := 0;
     endpoint := "sys"; property := "cpu_temp";
     enabled_by_default := None |};
  {| key := "psu1_current"; translation_key := "psu1_current";
     device_class := CURRENT; state_class := MEASUREMENT;
     native_unit_of_measurement := MILLIAMPERE; suggested_display_precision := 0;
     endpoint := "sys"; property := "psu1_current";
     enabled_by_default := Some poe_is_not_None |};
  {| key := "psu1_voltage"; translation_key := "psu1_voltage";
     device_class := VOLTAGE; state_class := MEASUREMENT;
     native_unit_of_measurement := VOLT; suggested_display_precision := 2;
     endpoint := "sys"; property := "psu1_voltage";
     enabled_by_default := Some poe_is_not_None |};
  {| key := "psu1_power"; translation_key := "psu1_power";
     device_class := POWER; state_class := MEASUREMENT;
     native_unit_of_measurement := WATT; suggested_display_precision := 1;
     endpoint := "sys"; property := "psu1_power";
     enabled_by_default := Some poe_is_not_None |};
  {| key := "psu2_current"; translation_key := "psu2_current";
     device_class := CURRENT; state_class := MEASUREMENT;
     native_unit_of_measurement := MILLIAMPERE; suggested_display_precision := 0;
     endpoint := "sys"; property := "psu2_current";
     enabled_by_default := Some poe_is_not_None |};
  {| key := "psu2_voltage"; translation_key := "psu2_voltage";
     device_class := VOLTAGE; state_class := MEASUREMENT;
     native_unit_of_measurement := VOLT; suggested_display_precision := 2;
     endpoint := "sys"; property := "psu2_voltage";
     enabled_by_default := Some poe_is_not_None |};
  {| key := "psu2_power"; translation_key := "psu2_power";
     device_class := POWER; state_class := MEASUREMENT;
     native_unit_of_measurement := WATT; suggested_display_precision := 1;
     endpoint := "sys"; property := "psu2_power";
     enabled_by_default := Some poe_is_not_None |};
  {| key := "total_power"; translation_key := "total_power";
     device_class := POWER; state_class := MEASUREMENT;
     native_unit_of_measurement := WATT; suggested_display_precision := 1;
     endpoint := "sys"; property := "power_consumption";
     enabled_by_default := Some poe_is_not_None |}
].

Definition PORT_SENSORS : list MikrotikSwitchOSEntityDescription := [
  {| key := "poe_power"; translation_key := "poe_power";
     device_class := POWER; state_class := MEASUREMENT;
     native_unit_of_measurement := WATT; suggested_display_precision := 1;
     endpoint := "poe"; property := "power";
     enabled_by_default := None |};
  {| key := "poe_current"; translation_key := "poe_current";
     device_class := CURRENT; state_class := MEASUREMENT;
     native_unit_of_measurement := MILLIAMPERE; suggested_display_precision := 1;
     endpoint := "poe"; property := "current";
     enabled_by_default := None |};
  {| key := "poe_voltage"; translation_key := "poe_voltage";
     device_class := VOLTAGE; state_class := MEASUREMENT;
     native_unit_of_measurement := VOLT; suggested_display_precision := 1;
     endpoint := "poe"; property := "voltage";
     enabled_by_default := None |}
].

(** The [device] dictionary built by [async_setup_entry]. *)
Record DeviceInfo : Type := {
  identifiers : gset (string * string);
  connections : gset (string * string);
  manufacturer : string;
  device_model : string;
  device_name : string;
  serial_number : string;
  sw_version : string
}.

(** [MikrotikSwitchOSSensor]: the attributes [__init__] sets. *)
Record MikrotikSwitchOSSensor : Type := {
  entity_description : MikrotikSwitchOSEntityDescription;
  has_entity_name : bool;
  attr_unique_id : string;
  attr_device_info : DeviceInfo
}.

(** [MikrotikSwitchOSPortSensor(MikrotikSwitchOSSensor)]: the inherited
    attributes and what the subclass adds. *)
Record MikrotikSwitchOSPortSensor : Type := {
  base : MikrotikSwitchOSSensor;
  port : Port;
  attr_translation_placeholders : list (string * string)
}.

Inductive Entity : Type :=
| GlobalEntity (s : MikrotikSwitchOSSensor)
| PortEntity (s : MikrotikSwitchOSPortSensor).

(** [MikrotikSwitchOSSensor.__init__] *)
Definition MikrotikSwitchOSSensor_init (coordinator : MikrotikSwitchOSCoordinator)
    (device : DeviceInfo) (d : MikrotikSwitchOSEntityDescription) : MikrotikSwitchOSSensor :=
  {| entity_description := d;
     has_entity_name := true;
     attr_unique_id := serial_num coordinator +:+ "_" +:+ key d;
     attr_device_info := device |}.

(** [MikrotikSwitchOSPortSensor.__init__]: the base initialiser runs first,
    then the unique id is overwritten. *)
Definition MikrotikSwitchOSPortSensor_init (coordinator : MikrotikSwitchOSCoordinator)
    (device : DeviceInfo) (d : MikrotikSwitchOSEntityDescription) (p : Port)
    : MikrotikSwitchOSPortSensor :=
  let super := MikrotikSwitchOSSensor_init coordinator device d in
  {| base :=
       {| entity_description := entity_description super;
          has_entity_name := has_entity_name super;
          attr_unique_id :=
            serial_num coordinator +:+ "_" +:+ Py.str_int (num p) +:+ "_" +:+ key d;
          attr_device_info := attr_device_info super |};
     port := p;
     attr_translation_placeholders :=
       [("port_num", Py.format_02d (num p + 1)); ("port_name", name p)] |}.

Definition description_of (e : Entity) : MikrotikSwitchOSEntityDescription :=
  match e with
  | GlobalEntity s => entity_description s
  | PortEntity s => entity_description (base s)
  end.

Definition unique_id (e : Entity) : string :=
  match e with
  | GlobalEntity s => attr_unique_id s
  | PortEntity s => attr_unique_id (base s)
  end.

(** [_global_entity_exists] *)
Definition _global_entity_exists (entity_desc : MikrotikSwitchOSEntityDescription)
    (a : MikrotikSwitchOSData) : bool :=
  Py.is_not_None
    (Py.getattr_default (api_getattr_default a (endpoint entity_desc) Py.VNone)
       (property entity_desc) Py.VNone).

(** [_port_entity_exists]: the [isinstance(value, (tuple, list))] test is
    the match on the constructor, and [len(value) > port.num] is only
    evaluated when it passed. *)
Definition _port_entity_exists (entity_desc : MikrotikSwitchOSEntityDescription)
    (a : MikrotikSwitchOSData) (p : Port) : bool :=
  let value :=
    Py.getattr_default (api_getattr_default a (endpoint entity_desc) Py.VNone)
      (property entity_desc) Py.VNone in
  match value with
  | Py.VList items | Py.VTuple items => Z.of_nat (List.length items) >? num p
  | _ => false
  end.

(** Entity properties run against the coordinator object the entity refers
    to: the state of the monad is that object. *)

(** [MikrotikSwitchOSSensor.native_value] *)
Definition native_value (self : MikrotikSwitchOSSensor)
    : M MikrotikSwitchOSCoordinator Py.value :=
  coordinator <- get ;;
  ep <- lift (api_getattr (api coordinator) (endpoint (entity_description self))) ;;
  lift (Py.getattr ep (property (entity_description self))).

(** [MikrotikSwitchOSSensor.entity_registry_enabled_default] *)
Definition entity_registry_enabled_default (self : MikrotikSwitchOSSensor)
    : M MikrotikSwitchOSCoordinator bool :=
  match enabled_by_default (entity_description self) with
  | None => ret true
  | Some predicate =>
      coordinator <- get ;;
      lift (predicate (api coordinator))
  end.

(** [MikrotikSwitchOSPortSensor.native_value] *)
Definition port_native_value (self : MikrotikSwitchOSPortSensor)
    : M MikrotikSwitchOSCoordinator Py.value :=
  coordinator <- get ;;
  ep <- lift (api_getattr (api coordinator) (endpoint (entity_description (base self)))) ;;
  arr <- lift (Py.getattr ep (property (entity_description (base self)))) ;;
  lift (Py.subscript arr (num (port self))).

(** Method dispatch on the entity's class. *)
Definition entity_native_value (e : Entity) : M MikrotikSwitchOSCoordinator Py.value :=
  match e with
  | GlobalEntity s => native_value s
  | PortEntity s => port_native_value s
  end.

Definition make_device (coordinator : MikrotikSwitchOSCoordinator) : DeviceInfo :=
  {| identifiers := {[ (Const.DOMAIN, serial_num coordinator) ]};
     connections := {[ ("mac", mac coordinator) ]};
     manufacturer := Const.ATTR_MANUFACTURER;
     device_model := model coordinator;
     device_name := identity coordinator;
     serial_number := serial_num coordinator;
     sw_version := firmware coordinator |}.

(** The first list comprehension of [async_setup_entry]. *)
Definition global_entities (coordinator : MikrotikSwitchOSCoordinator) : list Entity :=
  let device := make_device coordinator in
  List.flat_map
    (fun global_sensor =>
       if _global_entity_exists global_sensor (api coordinator)
       then [GlobalEntity (MikrotikSwitchOSSensor_init coordinator device global_sensor)]
       else [])
    GLOBAL_SENSORS.

(** The second list comprehension of [async_setup_entry]: the outer loop
    runs over the descriptions, the inner one over the ports. *)
Definition port_entities (coordinator : MikrotikSwitchOSCoordinator) : list Entity :=
  let device := make_device coordinator in
  List.flat_map
    (fun port_sensor =>
       List.flat_map
         (fun p =>
            if _port_entity_exists port_sensor (api coordinator) p
            then [PortEntity (MikrotikSwitchOSPortSensor_init coordinator device port_sensor p)]
            else [])
         (ports (api coordinator)))
    PORT_SENSORS.

(** [async_setup_entry] of the sensor platform. *)
Definition async_setup_entry : M (Hass.State Entity) unit :=
  coordinator <- Hass.get_runtime_data ;;
  Hass.async_add_entities (global_entities coordinator) ;;;
  Hass.async_add_entities (port_entities coordinator).

End Sensor.

(** ** __init__.py *)

Module Init.
Import Data.

Definition _PLATFORMS : list Hass.Platform := [Hass.SENSOR].

(** Modelled from the spec: [coordinator.py] is missing.  Constructing the
    coordinator and awaiting its first refresh performs one fetch; [fetch]
    is what that fetch yields, either an error, which propagates to the
    caller, or the coordinator holding the first snapshot. *)
Definition async_config_entry_first_refresh
    (fetch : Py.result MikrotikSwitchOSCoordinator)
    : M (Hass.State Sensor.Entity) MikrotikSwitchOSCoordinator :=
  Hass.log Hass.FirstRefresh ;;;
  lift fetch.

(** The platform modules of the integration. *)
Definition platform_setup (p : Hass.Platform) : M (Hass.State Sensor.Entity) unit :=
  match p with
  | Hass.SENSOR => Sensor.async_setup_entry
  end.

(** [hass.config_entries.async_forward_entry_setups(config_entry, platforms)] *)
Definition async_forward_entry_setups (platforms : list Hass.Platform)
    : M (Hass.State Sensor.Entity) unit :=
  for_each platforms (fun p => Hass.mark_forwarded p ;;; platform_setup p).

(** [async_setup_entry] *)
Definition async_setup_entry (fetch : Py.result MikrotikSwitchOSCoordinator)
    : M (Hass.State Sensor.Entity) bool :=
  coordinator <- async_config_entry_first_refresh fetch ;;
  Hass.set_runtime_data coordinator ;;;
  async_forward_entry_setups _PLATFORMS ;;;
  ret true.

(** The entities the host holds once a config entry was set up from
    scratch, the first refresh having produced [coordinator]: everything one
    run of the sensor platform's [async_setup_entry] created against the
    first snapshot. *)
Definition created (coordinator : MikrotikSwitchOSCoordinator) : list Sensor.Entity :=
  Hass.entities (snd (async_setup_entry (Py.ok coordinator) Hass.fresh)).

End Init.

(** ** The polling coordinator *)

Module Polling.
Import Data.

Inductive Caller : Type := Timer | Manual (id : nat).

Definition Outcome : Type := (Py.fetch_error + MikrotikSwitchOSData)%type.

(** Modelled from the spec: [coordinator.py] is missing.  The coordinator
    state of §3 ([last_snapshot], [last_error], [refresh_interval],
    [observers]) with the in-flight flag of §5, the callers that joined the
    fetch in flight, the number of fetches issued to the Remote Data Source,
    the results handed back to callers and the number of notification
    passes. *)
Record State : Type := {
  last_snapshot : option MikrotikSwitchOSData;
  last_error : option Py.fetch_error;
  refresh_interval : Z;
  observers : gset nat;
  in_flight : bool;
  joined : list Caller;
  fetches : nat;
  delivered : list (Caller * Outcome);
  notifications : nat
}.

Inductive Input : Type :=
| Trigger (c : Caller)
| FetchDone (r : Outcome)
| Register (o : nat)
| Unregister (o : nat).

Definition init : State :=
  {| last_snapshot := None; last_error := None;
     refresh_interval := Const.DEFAULT_UPDATE_INTERVAL;
     observers := ∅; in_flight := false; joined := []; fetches := 0%nat;
     delivered := []; notifications := 0%nat |}.

(** Modelled from the spec: [refresh_now] of §4.1.  "If a refresh is
    already in progress, a concurrent request joins the in-flight one rather
    than starting a second fetch." *)
Definition refresh_now (c : Caller) (s : State) : State :=
  if in_flight s then
    {| last_snapshot := last_snapshot s; last_error := last_error s;
       refresh_interval := refresh_interval s; observers := observers s;
       in_flight := true; joined := joined s ++ [c]; fetches := fetches s;
       delivered := delivered s; notifications := notifications s |}
  else
    {| last_snapshot := last_snapshot s; last_error := last_error s;
       refresh_interval := refresh_interval s; observers := observers s;
       in_flight := true; joined := [c]; fetches := S (fetches s);
       delivered := delivered s; notifications := notifications s |}.

(** Modelled from the spec: completion of the fetch in flight.  "On
    success: atomically replace [last_snapshot], clear [last_error], notify
    all observers.  On failure: preserve [last_snapshot] unchanged, record
    [last_error], notify all observers."  Every caller that joined gets the
    one result. *)
Definition fetch_done (r : Outcome) (s : State) : State :=
  if in_flight s then
    {| last_snapshot := match r with inr snap => Some snap | inl _ => last_snapshot s end;
       last_error := match r with inr _ => None | inl e => Some e end;
       refresh_interval := refresh_interval s; observers := observers s;
       in_flight := false; joined := []; fetches := fetches s;
       delivered := delivered s ++ List.map (fun c => (c, r)) (joined s);
       notifications := S (notifications s) |}
  else s.

Definition set_observers (f : gset nat -> gset nat) (s : State) : State :=
  {| last_snapshot := last_snapshot s; last_error := last_error s;
     refresh_interval := refresh_interval s; observers := f (observers s);
     in_flight := in_flight s; joined := joined s; fetches := fetches s;
     delivered := delivered s; notifications := notifications s |}.

Definition step (s : State) (i : Input) : State :=
  match i with
  | Trigger c => refresh_now c s
  | FetchDone r => fetch_done r s
  | Register o => set_observers (fun os => os ∪ {[ o ]}) s
  | Unregister o => set_observers (fun os => os ∖ {[ o ]}) s
  end.

(** The coordinator after a schedule of interleaved inputs. *)
Definition run (s : State) (schedule : list Input) : State :=
  List.fold_left step schedule s.

(** Fetches that completed: one notification pass each. *)
Definition completed (s : State) : nat := notifications s.

(** At most one fetch is outstanding: the fetches issued are the completed
    ones plus the one in flight, if any. *)
Definition one_outstanding (s : State) : Prop :=
  fetches s = (completed s + (if in_flight s then 1 else 0))%nat.

End Polling.

(** ** Sample devices *)

Module Sample.
Import Data.

Definition watts : list Py.value :=
  [Py.VInt 0; Py.VInt 4; Py.VInt 0; Py.VInt 7; Py.VInt 0; Py.VInt 0; Py.VInt 12; Py.VInt 0].

Definition eight_ports : list Port :=
  [{| num := 0; name := "Port1" |}; {| num := 1; name := "Port2" |};
   {| num := 2; name := "Port3" |}; {| num := 3; name := "Port4" |};
   {| num := 4; name := "Port5" |}; {| num := 5; name := "Port6" |};
   {| num := 6; name := "Port7" |}; {| num := 7; name := "Port8" |}].

(** A PoE switch: eight ports, PSU metrics and per-port PoE arrays. *)
Definition poe_switch : MikrotikSwitchOSData :=
  {| endpoints :=
       <["sys" := Py.VObj (<["cpu_temp" := Py.VInt 42]>
                           (<["psu1_current" := Py.VInt 350]> ∅))]>
       (<["poe" := Py.VObj (<["power" := Py.VList watts]>
                            (<["current" := Py.VTuple watts]> ∅))]> ∅);
     ports := eight_ports |}.

(** The same switch reporting only its first two PoE ports. *)
Definition poe_switch_short : MikrotikSwitchOSData :=
  {| endpoints :=
       <["sys" := Py.VObj (<["cpu_temp" := Py.VInt 45]> ∅)]>
       (<["poe" := Py.VObj (<["power" := Py.VList [Py.VInt 0; Py.VInt 4]]> ∅)]> ∅);
     ports := eight_ports |}.

(** A switch without PoE: [poe] is [None]. *)
Definition plain_switch : MikrotikSwitchOSData :=
  {| endpoints :=
       <["sys" := Py.VObj (<["cpu_temp" := Py.VInt 42]>
                           (<["psu1_current" := Py.VInt 350]> ∅))]>
       (<["poe" := Py.VNone]> ∅);
     ports := [{| num := 0; name := "Port1" |}; {| num := 1; name := "Port2" |}] |}.

Definition coordinator_of (a : MikrotikSwitchOSData) : MikrotikSwitchOSCoordinator :=
  {| serial_num := "HC1234"; mac := "AA:BB:CC:DD:EE:FF"; model := "CRS328";
     identity := "switch"; firmware := "2.17"; api := a |}.

Definition device : Sensor.DeviceInfo := Sensor.make_device (coordinator_of poe_switch).

(** The first description of [PORT_SENSORS]. *)
Definition poe_power : Sensor.MikrotikSwitchOSEntityDescription :=
  {| Sensor.key := "poe_power"; Sensor.translation_key := "poe_power";
     Sensor.device_class := Sensor.POWER; Sensor.state_class := Sensor.MEASUREMENT;
     Sensor.native_unit_of_measurement := Sensor.WATT;
     Sensor.suggested_display_precision := 1;
     Sensor.endpoint := "poe"; Sensor.property := "power";
     Sensor.enabled_by_default := None |}.

(** The second description of [GLOBAL_SENSORS]. *)
Definition psu1_current : Sensor.MikrotikSwitchOSEntityDescription :=
  {| Sensor.key := "psu1_current"; Sensor.translation_key := "psu1_current";
     Sensor.device_class := Sensor.CURRENT; Sensor.state_class := Sensor.MEASUREMENT;
     Sensor.native_unit_of_measurement := Sensor.MILLIAMPERE;
     Sensor.suggested_display_precision := 0;
     Sensor.endpoint := "sys"; Sensor.property := "psu1_current";
     Sensor.enabled_by_default := Some Sensor.poe_is_not_None |}.

(** The PoE power sensor of the port with index 3. *)
Definition poe_power_port3 : Sensor.MikrotikSwitchOSPortSensor :=
  Sensor.MikrotikSwitchOSPortSensor_init (coordinator_of poe_switch) device poe_power
    {| num := 3; name := "Port4" |}.

(** The PSU current sensor of the switch without PoE. *)
Definition psu1_current_sensor : Sensor.MikrotikSwitchOSSensor :=
  Sensor.MikrotikSwitchOSSensor_init (coordinator_of plain_switch)
    (Sensor.make_device (coordinator_of plain_switch)) psu1_current.

End Sample.

(** ** Reading entities through their class *)

Module Entities.
Import Data.

(** [entity_registry_enabled_default] of any entity: the port sensor
    inherits the property of [MikrotikSwitchOSSensor]. *)
Definition enabled_default (e : Sensor.Entity) : M MikrotikSwitchOSCoordinator bool :=
  match e with
  | Sensor.GlobalEntity s => Sensor.entity_registry_enabled_default s
  | Sensor.PortEntity s => Sensor.entity_registry_enabled_default (Sensor.base s)
  end.

(** [self._attr_translation_placeholders[name]] *)
Fixpoint placeholder (entries : list (string * string)) (wanted : string) : option string :=
  match entries with
  | [] => None
  | (k, v) :: rest => if String.eqb k wanted then Some v else placeholder rest wanted
  end.

(** [int(s)] for a string of an optional sign and decimal digits. *)
Definition int_of_str (s : string) : option Z :=
  match NilEmpty.int_of_string s with
  | Some d => Some (Z.of_int d)
  | None => None
  end.

(** A switch whose port list carries a port numbered below zero. *)
Definition odd_switch : MikrotikSwitchOSData :=
  {| endpoints :=
       <["poe" := Py.VObj (<["power" := Py.VList [Py.VInt 5; Py.VInt 6]]> ∅)]> ∅;
     ports := [{| num := -3; name := "Odd" |}] |}.

Definition odd_sensor : Sensor.MikrotikSwitchOSPortSensor :=
  Sensor.MikrotikSwitchOSPortSensor_init (Sample.coordinator_of odd_switch)
    (Sensor.make_device (Sample.coordinator_of odd_switch)) Sample.poe_power
    {| num := -3; name := "Odd" |}.

End Entities.

(** * Properties *)

Import Data.

(** ** Python values *)

Example str_int_0 : Py.str_int 0 = "0".
Proof. reflexivity. Qed.

Example str_int_12 : Py.str_int 12 = "12".
Proof. reflexivity. Qed.

Example str_int_neg : Py.str_int (-7) = "-7".
Proof. reflexivity. Qed.

Example format_02d_3 : Py.format_02d 3 = "03".
Proof. reflexivity. Qed.

Example format_02d_11 : Py.format_02d 11 = "11".
Proof. reflexivity. Qed.

Lemma is_not_None_true (v : Py.value) : Py.is_not_None v = true <-> v <> Py.VNone.
Proof. destruct v; simpl; split; congruence. Qed.

(** The chained lookup both existence predicates start with: the selected
    value, or [None] as soon as the endpoint or the property is missing. *)
Lemma selector_default (a : MikrotikSwitchOSData) (ep_name prop_name : string) :
  Py.getattr_default (api_getattr_default a ep_name Py.VNone) prop_name Py.VNone =
  match api_attr a ep_name with
  | Some ep =>
      match Py.attr ep prop_name with
      | Some v => v
      | None => Py.VNone
      end
  | None => Py.VNone
  end.
Proof.
  unfold Py.getattr_default, api_getattr_default.
  destruct (api_attr a ep_name) as [ep|]; reflexivity.
Qed.

(** ** Setup of a config entry *)

Section Setup.

Variable c : MikrotikSwitchOSCoordinator.

Lemma sensor_setup_run (h : Hass.State Sensor.Entity) :
  Hass.runtime_data h = Some c ->
  Sensor.async_setup_entry h =
  (Py.ok tt,
   {| Hass.runtime_data := Some c;
      Hass.forwarded := Hass.forwarded h;
      Hass.entities :=
        (Hass.entities h ++ Sensor.global_entities c) ++ Sensor.port_entities c;
      Hass.journal :=
        (Hass.journal h ++ [Hass.EntitiesAdded (List.length (Sensor.global_entities c))])
        ++ [Hass.EntitiesAdded (List.length (Sensor.port_entities c))] |}).
Proof.
  intros Hrd.
  unfold Sensor.async_setup_entry, Hass.get_runtime_data, Hass.async_add_entities,
    bind, get, modify, Py.ok.
  simpl. rewrite Hrd. unfold ret, Py.ok. simpl. rewrite Hrd. reflexivity.
Qed.

Lemma setup_run_ok (h : Hass.State Sensor.Entity) :
  Init.async_setup_entry (Py.ok c) h =
  (Py.ok true,
   {| Hass.runtime_data := Some c;
      Hass.forwarded := Hass.forwarded h ++ [Hass.SENSOR];
      Hass.entities :=
        (Hass.entities h ++ Sensor.global_entities c) ++ Sensor.port_entities c;
      Hass.journal :=
        Hass.journal h ++
        [Hass.FirstRefresh; Hass.RuntimeDataAssigned; Hass.PlatformSetup Hass.SENSOR;
         Hass.EntitiesAdded (List.length (Sensor.global_entities c));
         Hass.EntitiesAdded (List.length (Sensor.port_entities c))] |}).
Proof.
  cbv beta iota zeta delta
    [Init.async_setup_entry Init.async_config_entry_first_refresh
     Init.async_forward_entry_setups Init._PLATFORMS Init.platform_setup
     Hass.log Hass.set_runtime_data Hass.mark_forwarded for_each
     bind lift modify ret Py.ok].
  rewrite sensor_setup_run by reflexivity. simpl.
  rewrite <- !app_assoc. reflexivity.
Qed.

Lemma created_eq : Init.created c = Sensor.global_entities c ++ Sensor.port_entities c.
Proof. unfold Init.created. rewrite setup_run_ok. reflexivity. Qed.

End Setup.

Lemma setup_run_error (e : Py.exn) (h : Hass.State Sensor.Entity) :
  Init.async_setup_entry (Py.raise e) h =
  (Py.raise e,
   {| Hass.runtime_data := Hass.runtime_data h;
      Hass.forwarded := Hass.forwarded h;
      Hass.entities := Hass.entities h;
      Hass.journal := Hass.journal h ++ [Hass.FirstRefresh] |}).
Proof. reflexivity. Qed.

(** C1.  Setting up a config entry performs the first refresh before the
    sensor platform is set up, and a failing first fetch aborts the setup:
    the error reaches the caller, [runtime_data] is not assigned, no platform
    is forwarded and no entity is created. *)
Theorem setup_first_refresh_gates_platforms :
  (forall (e : Py.exn) (h : Hass.State Sensor.Entity),
     let r := Init.async_setup_entry (Py.raise e) h in
     fst r = Py.raise e /\
     Hass.runtime_data (snd r) = Hass.runtime_data h /\
     Hass.forwarded (snd r) = Hass.forwarded h /\
     Hass.entities (snd r) = Hass.entities h /\
     Hass.journal (snd r) = Hass.journal h ++ [Hass.FirstRefresh]) /\
  (forall e : Py.exn,
     let r := Init.async_setup_entry (Py.raise e) Hass.fresh in
     Hass.runtime_data (snd r) = None /\
     Hass.forwarded (snd r) = [] /\
     Hass.entities (snd r) = []) /\
  (forall (c : MikrotikSwitchOSCoordinator) (h : Hass.State Sensor.Entity),
     let r := Init.async_setup_entry (Py.ok c) h in
     fst r = Py.ok true /\
     Hass.runtime_data (snd r) = Some c /\
     exists n m : nat,
       Hass.journal (snd r) =
       Hass.journal h ++
       [Hass.FirstRefresh; Hass.RuntimeDataAssigned; Hass.PlatformSetup Hass.SENSOR;
        Hass.EntitiesAdded n; Hass.EntitiesAdded m]).
Proof.
  split; [|split].
  - intros e h r. subst r. rewrite setup_run_error. simpl. repeat split.
  - intros e r. subst r. rewrite setup_run_error. simpl. repeat split.
  - intros c h r. subst r. rewrite setup_run_ok. simpl.
    split; [reflexivity|]. split; [reflexivity|]. eauto.
Qed.

(** C8.  The default refresh interval is 10: the constant of [const.py],
    and with it the interval a new coordinator starts with. *)
Theorem default_update_interval_is_10 :
  Const.DEFAULT_UPDATE_INTERVAL = 10 /\
  Polling.refresh_interval Polling.init = 10.
Proof. split; reflexivity. Qed.

(** ** Which entities the sensor platform creates *)

Lemma global_entity_exists_iff (d : Sensor.MikrotikSwitchOSEntityDescription)
    (a : MikrotikSwitchOSData) :
  Sensor._global_entity_exists d a = true <->
  exists ep v,
    api_attr a (Sensor.endpoint d) = Some ep /\
    Py.attr ep (Sensor.property d) = Some v /\
    v <> Py.VNone.
Proof.
  unfold Sensor._global_entity_exists. rewrite selector_default, is_not_None_true.
  split.
  - destruct (api_attr a (Sensor.endpoint d)) as [ep|]; [|intros []; reflexivity].
    destruct (Py.attr ep (Sensor.property d)) as [v|] eqn:Ev; [|intros []; reflexivity].
    intros Hv. exists ep, v. auto.
  - intros (ep & v & -> & -> & Hv). exact Hv.
Qed.

Lemma port_entity_exists_iff (d : Sensor.MikrotikSwitchOSEntityDescription)
    (a : MikrotikSwitchOSData) (p : Port) :
  Sensor._port_entity_exists d a p = true <->
  exists ep items,
    api_attr a (Sensor.endpoint d) = Some ep /\
    (Py.attr ep (Sensor.property d) = Some (Py.VList items) \/
     Py.attr ep (Sensor.property d) = Some (Py.VTuple items)) /\
    num p < Z.of_nat (List.length items).
Proof.
  unfold Sensor._port_entity_exists. rewrite selector_default.
  split.
  - destruct (api_attr a (Sensor.endpoint d)) as [ep|]; [|discriminate].
    destruct (Py.attr ep (Sensor.property d)) as [v|] eqn:Ev; [|discriminate].
    destruct v; try discriminate; intros Hlen; exists ep, items;
      (split; [reflexivity|split; [auto|lia]]).
  - intros (ep & items & -> & [-> | ->] & Hlen); lia.
Qed.

Lemma in_global_entities (c : MikrotikSwitchOSCoordinator) (e : Sensor.Entity) :
  In e (Sensor.global_entities c) <->
  exists d,
    In d Sensor.GLOBAL_SENSORS /\
    Sensor._global_entity_exists d (api c) = true /\
    e = Sensor.GlobalEntity
          (Sensor.MikrotikSwitchOSSensor_init c (Sensor.make_device c) d).
Proof.
  unfold Sensor.global_entities. rewrite in_flat_map. split.
  - intros (d & Hd & Hin). exists d.
    destruct (Sensor._global_entity_exists d (api c)); simpl in Hin;
      intuition congruence.
  - intros (d & Hd & Hex & ->). exists d. rewrite Hex. simpl. auto.
Qed.

Lemma in_port_entities (c : MikrotikSwitchOSCoordinator) (e : Sensor.Entity) :
  In e (Sensor.port_entities c) <->
  exists d p,
    In d Sensor.PORT_SENSORS /\
    In p (ports (api c)) /\
    Sensor._port_entity_exists d (api c) p = true /\
    e = Sensor.PortEntity
          (Sensor.MikrotikSwitchOSPortSensor_init c (Sensor.make_device c) d p).
Proof.
  unfold Sensor.port_entities. rewrite in_flat_map. split.
  - intros (d & Hd & Hin). apply in_flat_map in Hin as (p & Hp & Hin).
    exists d, p.
    destruct (Sensor._port_entity_exists d (api c) p); simpl in Hin;
      intuition congruence.
  - intros (d & p & Hd & Hp & Hex & ->). exists d. split; [exact Hd|].
    apply in_flat_map. exists p. rewrite Hex. simpl. auto.
Qed.

(** C3.  A global sensor entity for description [d] is created by the setup
    exactly when [d] is one of [GLOBAL_SENSORS] and its (endpoint, property)
    selector resolves to a value other than [None] on the first snapshot; a
    missing endpoint, a missing property or a [None] value yields no
    entity. *)
Theorem global_entity_created_iff_selector_resolves :
  forall (c : MikrotikSwitchOSCoordinator) (d : Sensor.MikrotikSwitchOSEntityDescription),
    ((exists s,
        In (Sensor.GlobalEntity s) (Init.created c) /\
        Sensor.entity_description s = d) <->
     (In d Sensor.GLOBAL_SENSORS /\
      exists ep v,
        api_attr (api c) (Sensor.endpoint d) = Some ep /\
        Py.attr ep (Sensor.property d) = Some v /\
        v <> Py.VNone)) /\
    ((api_attr (api c) (Sensor.endpoint d) = None \/
      exists ep,
        api_attr (api c) (Sensor.endpoint d) = Some ep /\
        (Py.attr ep (Sensor.property d) = None \/
         Py.attr ep (Sensor.property d) = Some Py.VNone)) ->
     ~ exists s,
         In (Sensor.GlobalEntity s) (Init.created c) /\
         Sensor.entity_description s = d).
Proof.
  intros c d.
  assert (Hiff :
    (exists s,
        In (Sensor.GlobalEntity s) (Init.created c) /\
        Sensor.entity_description s = d) <->
     (In d Sensor.GLOBAL_SENSORS /\
      exists ep v,
        api_attr (api c) (Sensor.endpoint d) = Some ep /\
        Py.attr ep (Sensor.property d) = Some v /\
        v <> Py.VNone)).
  { rewrite <- global_entity_exists_iff. split.
    - intros (s & Hin & Hd). rewrite created_eq in Hin.
      apply in_app_or in Hin as [Hin | Hin].
      + apply in_global_entities in Hin as (d' & Hd' & Hex & Heq).
        injection Heq as ->. simpl in Hd. subst d'. auto.
      + apply in_port_entities in Hin as (d' & p & _ & _ & _ & Heq).
        discriminate.
    - intros [Hd Hex].
      exists (Sensor.MikrotikSwitchOSSensor_init c (Sensor.make_device c) d).
      split; [|reflexivity].
      rewrite created_eq. apply in_or_app. left.
      apply in_global_entities. eauto. }
  split; [exact Hiff|].
  intros Habsent Hcreated. apply Hiff in Hcreated as (_ & ep & v & Hep & Hv & Hne).
  destruct Habsent as [Hnone | (ep' & Hep' & [Hnone | Hnone])]; congruence.
Qed.

(** C4.  A port sensor entity for description [d] and port [p] is created
    by the setup exactly when [d] is one of [PORT_SENSORS], [p] is one of
    the snapshot's ports, and the selector's value on the first snapshot is
    a list or tuple of length strictly greater than the port's index; with an
    array of length 8 a port of index 9 is rejected. *)
Theorem port_entity_created_iff_array_long_enough :
  forall (c : MikrotikSwitchOSCoordinator) (d : Sensor.MikrotikSwitchOSEntityDescription),
    (forall p : Port,
       (exists s,
          In (Sensor.PortEntity s) (Init.created c) /\
          Sensor.entity_description (Sensor.base s) = d /\
          Sensor.port s = p) <->
       (In d Sensor.PORT_SENSORS /\
        In p (ports (api c)) /\
        exists ep items,
          api_attr (api c) (Sensor.endpoint d) = Some ep /\
          (Py.attr ep (Sensor.property d) = Some (Py.VList items) \/
           Py.attr ep (Sensor.property d) = Some (Py.VTuple items)) /\
          num p < Z.of_nat (List.length items))) /\
    (forall ep items port_name,
       api_attr (api c) (Sensor.endpoint d) = Some ep ->
       (Py.attr ep (Sensor.property d) = Some (Py.VList items) \/
        Py.attr ep (Sensor.property d) = Some (Py.VTuple items)) ->
       List.length items = 8%nat ->
       Sensor._port_entity_exists d (api c) {| num := 9; name := port_name |} = false /\
       ~ exists s,
           In (Sensor.PortEntity s) (Init.created c) /\
           Sensor.entity_description (Sensor.base s) = d /\
           num (Sensor.port s) = 9).
Proof.
  intros c d.
  assert (Hiff : forall p : Port,
       (exists s,
          In (Sensor.PortEntity s) (Init.created c) /\
          Sensor.entity_description (Sensor.base s) = d /\
          Sensor.port s = p) <->
       (In d Sensor.PORT_SENSORS /\
        In p (ports (api c)) /\
        exists ep items,
          api_attr (api c) (Sensor.endpoint d) = Some ep /\
          (Py.attr ep (Sensor.property d) = Some (Py.VList items) \/
           Py.attr ep (Sensor.property d) = Some (Py.VTuple items)) /\
          num p < Z.of_nat (List.length items))).
  { intros p. rewrite <- port_entity_exists_iff. split.
    - intros (s & Hin & Hd & Hp). rewrite created_eq in Hin.
      apply in_app_or in Hin as [Hin | Hin].
      + apply in_global_entities in Hin as (d' & _ & _ & Heq). discriminate.
      + apply in_port_entities in Hin as (d' & p' & Hd' & Hp' & Hex & Heq).
        injection Heq as ->. simpl in Hd, Hp. subst d' p'. auto.
    - intros (Hd & Hp & Hex).
      exists (Sensor.MikrotikSwitchOSPortSensor_init c (Sensor.make_device c) d p).
      split; [|split; reflexivity].
      rewrite created_eq. apply in_or_app. right.
      apply in_port_entities. eauto 6. }
  split; [exact Hiff|].
  intros ep items port_name Hep Hv Hlen. split.
  - destruct (Sensor._port_entity_exists d (api c) {| num := 9; name := port_name |}) eqn:E;
      [|reflexivity].
    apply port_entity_exists_iff in E as (ep' & items' & Hep' & Hv' & Hlt).
    simpl in Hlt.
    assert (items' = items) by (destruct Hv, Hv'; congruence).
    subst items'. lia.
  - intros (s & Hin & Hd & Hnum).
    destruct (proj1 (Hiff (Sensor.port s))) as (_ & _ & ep' & items' & Hep' & Hv' & Hlt);
      [eauto|].
    assert (items' = items) by (destruct Hv, Hv'; congruence).
    subst items'. lia.
Qed.

(** ** Reading a sensor *)

Lemma native_value_run (s : Sensor.MikrotikSwitchOSSensor) (c : MikrotikSwitchOSCoordinator) :
  Sensor.native_value s c =
  (match api_attr (api c) (Sensor.endpoint (Sensor.entity_description s)) with
   | None => Py.raise (Py.AttributeError (Sensor.endpoint (Sensor.entity_description s)))
   | Some ep =>
       match Py.attr ep (Sensor.property (Sensor.entity_description s)) with
       | None => Py.raise (Py.AttributeError (Sensor.property (Sensor.entity_description s)))
       | Some v => Py.ok v
       end
   end, c).
Proof.
  unfold Sensor.native_value, bind, get, lift, api_getattr, Py.getattr. simpl.
  destruct (api_attr (api c) (Sensor.endpoint (Sensor.entity_description s))) as [ep|];
    simpl; [|reflexivity].
  destruct (Py.attr ep (Sensor.property (Sensor.entity_description s))); reflexivity.
Qed.

Lemma port_native_value_run (s : Sensor.MikrotikSwitchOSPortSensor)
    (c : MikrotikSwitchOSCoordinator) :
  Sensor.port_native_value s c =
  (match api_attr (api c) (Sensor.endpoint (Sensor.entity_description (Sensor.base s))) with
   | None =>
       Py.raise (Py.AttributeError (Sensor.endpoint (Sensor.entity_description (Sensor.base s))))
   | Some ep =>
       match Py.attr ep (Sensor.property (Sensor.entity_description (Sensor.base s))) with
       | None =>
           Py.raise
             (Py.AttributeError (Sensor.property (Sensor.entity_description (Sensor.base s))))
       | Some arr => Py.subscript arr (num (Sensor.port s))
       end
   end, c).
Proof.
  unfold Sensor.port_native_value, bind, get, lift, api_getattr, Py.getattr. simpl.
  destruct (api_attr (api c) (Sensor.endpoint (Sensor.entity_description (Sensor.base s))))
    as [ep|]; simpl; [|reflexivity].
  destruct (Py.attr ep (Sensor.property (Sensor.entity_description (Sensor.base s))))
    as [arr|]; simpl; [|reflexivity].
  destruct (Py.subscript arr (num (Sensor.port s))); reflexivity.
Qed.

Lemma enabled_default_run (s : Sensor.MikrotikSwitchOSSensor) (c : MikrotikSwitchOSCoordinator) :
  Sensor.entity_registry_enabled_default s c =
  (match Sensor.enabled_by_default (Sensor.entity_description s) with
   | None => Py.ok true
   | Some predicate => predicate (api c)
   end, c).
Proof.
  unfold Sensor.entity_registry_enabled_default, bind, get, lift, ret.
  destruct (Sensor.enabled_by_default (Sensor.entity_description s)) as [f|];
    [|reflexivity].
  simpl. destruct (f (api c)); reflexivity.
Qed.

Section SeqIndex.

Context {A : Type}.
Implicit Types (l : list A) (i : Z) (x : A).

Lemma seq_index_front l i x :
  0 <= i -> nth_error l (Z.to_nat i) = Some x -> Py.seq_index l i = Py.ok x.
Proof.
  intros Hi Hx. unfold Py.seq_index.
  assert (Hlt : (Z.to_nat i < List.length l)%nat)
    by (apply nth_error_Some; congruence).
  destruct (Z.ltb_spec i 0) as [?|_]; [lia|].
  destruct (Z.leb_spec 0 i); [|lia].
  destruct (Z.ltb_spec i (Z.of_nat (List.length l))); [|lia].
  simpl. rewrite Hx. reflexivity.
Qed.

Lemma seq_index_ok_lt l i x :
  Py.seq_index l i = Py.ok x -> i < Z.of_nat (List.length l).
Proof.
  unfold Py.seq_index.
  destruct (Z.ltb_spec i 0) as [Hneg|Hpos]; [lia|].
  destruct (Z.leb_spec 0 i); [|lia].
  destruct (Z.ltb_spec i (Z.of_nat (List.length l))); [auto|discriminate].
Qed.

Lemma seq_index_ge l i :
  Z.of_nat (List.length l) <= i -> Py.seq_index l i = Py.raise Py.IndexError.
Proof.
  intros Hge. unfold Py.seq_index.
  destruct (Z.ltb_spec i 0) as [Hneg|Hpos]; [lia|].
  destruct (Z.ltb_spec i (Z.of_nat (List.length l))); [lia|].
  rewrite andb_false_r. reflexivity.
Qed.

Lemma seq_index_in_range l i :
  0 <= i < Z.of_nat (List.length l) -> exists x, Py.seq_index l i = Py.ok x.
Proof.
  intros Hi.
  destruct (nth_error l (Z.to_nat i)) as [x|] eqn:E.
  - exists x. apply seq_index_front; [lia|exact E].
  - apply nth_error_None in E. lia.
Qed.

End SeqIndex.

Lemma length_chars (s : string) : List.length (Py.chars s) = String.length s.
Proof.
  unfold Py.chars. rewrite length_map.
  induction s as [|a s IH]; simpl; [reflexivity|]. rewrite IH. reflexivity.
Qed.

Lemma subscript_ok_len (arr v : Py.value) (i : Z) :
  Py.subscript arr i = Py.ok v -> exists n, Py.len arr = Py.ok n /\ i < n.
Proof.
  destruct arr; simpl; try discriminate; intros H; apply seq_index_ok_lt in H.
  - rewrite length_chars in H. eauto.
  - eauto.
  - eauto.
Qed.

Lemma subscript_len_le (arr : Py.value) (n i : Z) :
  Py.len arr = Py.ok n -> n <= i -> Py.subscript arr i = Py.raise Py.IndexError.
Proof.
  destruct arr; simpl; try discriminate; intros [= <-] Hle; apply seq_index_ge.
  - rewrite length_chars. exact Hle.
  - exact Hle.
  - exact Hle.
Qed.

Example poe_power_listed : In Sample.poe_power Sensor.PORT_SENSORS.
Proof. left. reflexivity. Qed.

Example psu1_current_listed : In Sample.psu1_current Sensor.GLOBAL_SENSORS.
Proof. right. left. reflexivity. Qed.

Example port3_reads_7 :
  Sensor.port_native_value Sample.poe_power_port3 (Sample.coordinator_of Sample.poe_switch) =
  (Py.ok (Py.VInt 7), Sample.coordinator_of Sample.poe_switch).
Proof. reflexivity. Qed.

Example port3_raises_on_short_array :
  Sensor.port_native_value Sample.poe_power_port3
    (Sample.coordinator_of Sample.poe_switch_short) =
  (Py.raise Py.IndexError, Sample.coordinator_of Sample.poe_switch_short).
Proof. reflexivity. Qed.

Example port3_created :
  In (Sensor.PortEntity Sample.poe_power_port3)
     (Init.created (Sample.coordinator_of Sample.poe_switch)).
Proof.
  rewrite created_eq. apply in_or_app. right. apply in_port_entities.
  exists Sample.poe_power, {| num := 3; name := "Port4" |}.
  split; [left; reflexivity|]. split; [simpl; tauto|].
  split; reflexivity.
Qed.

(** C5.  A port sensor bound to index [i] reads element [i] of the array
    its (endpoint, property) selector picks on the current snapshot: the
    read is the subscript of that array by the port's index, and whenever
    the array has an element at position [i], that element is returned and
    the coordinator is left as it was. *)
Theorem port_sensor_reads_its_index
    (s : Sensor.MikrotikSwitchOSPortSensor) (c : MikrotikSwitchOSCoordinator)
    (ep : Py.value) (items : list Py.value) (x : Py.value) :
  api_attr (api c) (Sensor.endpoint (Sensor.entity_description (Sensor.base s))) = Some ep ->
  (Py.attr ep (Sensor.property (Sensor.entity_description (Sensor.base s)))
     = Some (Py.VList items) \/
   Py.attr ep (Sensor.property (Sensor.entity_description (Sensor.base s)))
     = Some (Py.VTuple items)) ->
  0 <= num (Sensor.port s) ->
  nth_error items (Z.to_nat (num (Sensor.port s))) = Some x ->
  Sensor.port_native_value s c = (Py.ok x, c).
Proof.
  intros Hep Harr Hi Hx. rewrite port_native_value_run, Hep.
  destruct Harr as [-> | ->]; simpl; rewrite (seq_index_front items _ x Hi Hx);
    reflexivity.
Qed.

Lemma port_sensor_reads_its_index_witness :
  Sensor.port_native_value Sample.poe_power_port3 (Sample.coordinator_of Sample.poe_switch) =
  (Py.ok (Py.VInt 7), Sample.coordinator_of Sample.poe_switch).
Proof.
  apply (port_sensor_reads_its_index Sample.poe_power_port3
           (Sample.coordinator_of Sample.poe_switch)
           (Py.VObj (<["power" := Py.VList Sample.watts]>
                       (<["current" := Py.VTuple Sample.watts]> ∅)))
           Sample.watts (Py.VInt 7)).
  - reflexivity.
  - left. reflexivity.
  - simpl. lia.
  - reflexivity.
Defined.

(** C9.  Reading a port sensor is total only while the selected array is
    longer than the port's index.  A successful read implies the array has
    length strictly greater than the index; an array of length at most the
    index makes the read raise [IndexError] instead of yielding an absent
    value; the length check at registration makes the read succeed on the
    first snapshot; and a registered sensor does fail on a later, shorter
    snapshot. *)
Theorem port_sensor_read_needs_long_enough_array :
  (forall (s : Sensor.MikrotikSwitchOSPortSensor) (c c' : MikrotikSwitchOSCoordinator)
          (v : Py.value),
     Sensor.port_native_value s c = (Py.ok v, c') ->
     exists ep arr n,
       api_attr (api c) (Sensor.endpoint (Sensor.entity_description (Sensor.base s))) = Some ep /\
       Py.attr ep (Sensor.property (Sensor.entity_description (Sensor.base s))) = Some arr /\
       Py.len arr = Py.ok n /\
       num (Sensor.port s) < n) /\
  (forall (s : Sensor.MikrotikSwitchOSPortSensor) (c : MikrotikSwitchOSCoordinator)
          (ep arr : Py.value) (n : Z),
     api_attr (api c) (Sensor.endpoint (Sensor.entity_description (Sensor.base s))) = Some ep ->
     Py.attr ep (Sensor.property (Sensor.entity_description (Sensor.base s))) = Some arr ->
     Py.len arr = Py.ok n ->
     n <= num (Sensor.port s) ->
     Sensor.port_native_value s c = (Py.raise Py.IndexError, c)) /\
  (forall (s : Sensor.MikrotikSwitchOSPortSensor) (c : MikrotikSwitchOSCoordinator),
     In (Sensor.PortEntity s) (Init.created c) ->
     0 <= num (Sensor.port s) ->
     exists v, Sensor.port_native_value s c = (Py.ok v, c)) /\
  (exists (s : Sensor.MikrotikSwitchOSPortSensor) (c : MikrotikSwitchOSCoordinator)
          (later : MikrotikSwitchOSData),
     In (Sensor.PortEntity s) (Init.created c) /\
     0 <= num (Sensor.port s) /\
     Sensor.port_native_value s (with_api c later) =
       (Py.raise Py.IndexError, with_api c later)).
Proof.
  split; [|split; [|split]].
  - intros s c c' v Hrun. rewrite port_native_value_run in Hrun.
    destruct (api_attr (api c) (Sensor.endpoint (Sensor.entity_description (Sensor.base s))))
      as [ep|]; [|discriminate].
    destruct (Py.attr ep (Sensor.property (Sensor.entity_description (Sensor.base s))))
      as [arr|] eqn:Earr; [|discriminate].
    injection Hrun as Hsub _.
    apply subscript_ok_len in Hsub as (n & Hn & Hlt).
    exists ep, arr, n. auto.
  - intros s c ep arr n Hep Harr Hlen Hle.
    rewrite port_native_value_run, Hep, Harr.
    rewrite (subscript_len_le arr n _ Hlen Hle). reflexivity.
  - intros s c Hin Hi. rewrite created_eq in Hin.
    apply in_app_or in Hin as [Hin | Hin].
    + apply in_global_entities in Hin as (d & _ & _ & Heq). discriminate.
    + apply in_port_entities in Hin as (d & p & _ & _ & Hex & Heq).
      injection Heq as ->. simpl in Hi.
      apply port_entity_exists_iff in Hex as (ep & items & Hep & Harr & Hlt).
      destruct (seq_index_in_range items (num p)) as [x Hx]; [lia|].
      exists x. rewrite port_native_value_run. simpl. rewrite Hep.
      destruct Harr as [-> | ->]; simpl; rewrite Hx; reflexivity.
  - exists Sample.poe_power_port3, (Sample.coordinator_of Sample.poe_switch),
      Sample.poe_switch_short.
    split; [vm_compute; tauto|]. split; [simpl; lia|]. reflexivity.
Qed.

(** C6.  Evaluating a selector is a read-only, repeatable projection.
    Reading an entity leaves the coordinator, and with it the snapshot,
    untouched; a second read against the same snapshot gives the same value
    or the same error; the value read and both existence predicates depend
    on nothing but what the descriptor's endpoint holds; and the platform
    setup that evaluates the predicates leaves the coordinator of the config
    entry as it found it. *)
Theorem selector_evaluation_is_pure :
  (forall (e : Sensor.Entity) (c : MikrotikSwitchOSCoordinator),
     snd (Sensor.entity_native_value e c) = c /\
     Sensor.entity_native_value e (snd (Sensor.entity_native_value e c)) =
       Sensor.entity_native_value e c) /\
  (forall (e : Sensor.Entity) (c c' : MikrotikSwitchOSCoordinator),
     api_attr (api c) (Sensor.endpoint (Sensor.description_of e)) =
       api_attr (api c') (Sensor.endpoint (Sensor.description_of e)) ->
     fst (Sensor.entity_native_value e c) = fst (Sensor.entity_native_value e c')) /\
  (forall (d : Sensor.MikrotikSwitchOSEntityDescription) (a a' : MikrotikSwitchOSData),
     api_attr a (Sensor.endpoint d) = api_attr a' (Sensor.endpoint d) ->
     Sensor._global_entity_exists d a = Sensor._global_entity_exists d a' /\
     forall p : Port, Sensor._port_entity_exists d a p = Sensor._port_entity_exists d a' p) /\
  (forall h : Hass.State Sensor.Entity,
     Hass.runtime_data (snd (Sensor.async_setup_entry h)) = Hass.runtime_data h).
Proof.
  split; [|split; [|split]].
  - intros [s|s] c; simpl.
    + rewrite !native_value_run. simpl. auto.
    + rewrite !port_native_value_run. simpl. auto.
  - intros [s|s] c c' Heq; simpl in *.
    + rewrite !native_value_run. simpl. rewrite Heq. reflexivity.
    + rewrite !port_native_value_run. simpl. rewrite Heq. reflexivity.
  - intros d a a' Heq.
    unfold Sensor._global_entity_exists, Sensor._port_entity_exists.
    rewrite !selector_default, Heq. auto.
  - intros h. destruct (Hass.runtime_data h) as [c|] eqn:Hrd.
    + rewrite (sensor_setup_run c h Hrd). reflexivity.
    + unfold Sensor.async_setup_entry, Hass.get_runtime_data, bind, get. simpl.
      rewrite Hrd. simpl. exact Hrd.
Qed.

(** ** Enabled by default *)

Lemma poe_is_not_None_run (a : MikrotikSwitchOSData) :
  Sensor.poe_is_not_None a =
  match api_attr a "poe" with
  | Some v => Py.ok (Py.is_not_None v)
  | None => Py.raise (Py.AttributeError "poe")
  end.
Proof.
  unfold Sensor.poe_is_not_None, api_getattr.
  destruct (api_attr a "poe"); reflexivity.
Qed.

(** Every predicate in the descriptor tables is the [poe] check. *)
Lemma listed_predicate_is_poe (d : Sensor.MikrotikSwitchOSEntityDescription)
    (f : MikrotikSwitchOSData -> Py.result bool) :
  In d (Sensor.GLOBAL_SENSORS ++ Sensor.PORT_SENSORS) ->
  Sensor.enabled_by_default d = Some f ->
  f = Sensor.poe_is_not_None.
Proof.
  intros Hin Hf. simpl in Hin.
  repeat (destruct Hin as [<- | Hin]; [simpl in Hf; congruence|]).
  destruct Hin.
Qed.

Example psu1_current_disabled_without_poe :
  Sensor.entity_registry_enabled_default Sample.psu1_current_sensor
    (Sample.coordinator_of Sample.plain_switch) =
  (Py.ok false, Sample.coordinator_of Sample.plain_switch).
Proof. reflexivity. Qed.

Example psu1_current_enabled_with_poe :
  Sensor.entity_registry_enabled_default Sample.psu1_current_sensor
    (with_api (Sample.coordinator_of Sample.plain_switch) Sample.poe_switch) =
  (Py.ok true, with_api (Sample.coordinator_of Sample.plain_switch) Sample.poe_switch).
Proof. reflexivity. Qed.

(** C7, as the specification words it, does not hold of the property: a
    sensor that was created against a first snapshot without [poe], and read
    as disabled there, reads as enabled once the coordinator holds a snapshot
    with [poe]. *)
Lemma enabled_default_is_not_latched :
  ~ (forall (s : Sensor.MikrotikSwitchOSSensor) (c : MikrotikSwitchOSCoordinator)
            (later : MikrotikSwitchOSData),
       In (Sensor.GlobalEntity s) (Init.created c) ->
       Sensor.enabled_by_default (Sensor.entity_description s) <> None ->
       fst (Sensor.entity_registry_enabled_default s c) = Py.ok false ->
       fst (Sensor.entity_registry_enabled_default s (with_api c later)) = Py.ok false).
Proof.
  intros H.
  specialize (H Sample.psu1_current_sensor (Sample.coordinator_of Sample.plain_switch)
                Sample.poe_switch).
  assert (Hin : In (Sensor.GlobalEntity Sample.psu1_current_sensor)
                  (Init.created (Sample.coordinator_of Sample.plain_switch)))
    by (vm_compute; tauto).
  specialize (H Hin). simpl in H.
  assert (Hne : Some Sensor.poe_is_not_None <> None) by discriminate.
  specialize (H Hne eq_refl). discriminate H.
Qed.

(** C7, amended.  The default-enabled flag is computed from the snapshot
    the coordinator holds when the property is read, and reading it changes
    nothing.  A sensor without a predicate is always enabled; a listed sensor
    with a predicate is enabled exactly when [poe] of that snapshot is not
    [None], so a read at registration is decided by the first snapshot. *)
Theorem enabled_default_reads_current_snapshot :
  forall (s : Sensor.MikrotikSwitchOSSensor) (c : MikrotikSwitchOSCoordinator),
    (Sensor.enabled_by_default (Sensor.entity_description s) = None ->
     Sensor.entity_registry_enabled_default s c = (Py.ok true, c)) /\
    (In (Sensor.entity_description s) (Sensor.GLOBAL_SENSORS ++ Sensor.PORT_SENSORS) ->
     Sensor.enabled_by_default (Sensor.entity_description s) <> None ->
     forall v : Py.value,
       api_attr (api c) "poe" = Some v ->
       Sensor.entity_registry_enabled_default s c = (Py.ok (Py.is_not_None v), c)) /\
    (forall d : Sensor.MikrotikSwitchOSEntityDescription,
       In d Sensor.GLOBAL_SENSORS ->
       (Sensor.enabled_by_default d <> None <-> Sensor.key d <> "cpu_temperature")) /\
    (forall d : Sensor.MikrotikSwitchOSEntityDescription,
       In d Sensor.PORT_SENSORS -> Sensor.enabled_by_default d = None).
Proof.
  intros s c. split; [|split; [|split]].
  - intros Hnone. rewrite enabled_default_run, Hnone. reflexivity.
  - intros Hin Hsome v Hpoe. rewrite enabled_default_run.
    destruct (Sensor.enabled_by_default (Sensor.entity_description s)) as [f|] eqn:Ef;
      [|congruence].
    rewrite (listed_predicate_is_poe _ f Hin Ef), poe_is_not_None_run, Hpoe.
    reflexivity.
  - intros d Hin. simpl in Hin.
    repeat (destruct Hin as [<- | Hin]; [simpl; split; congruence|]).
    destruct Hin.
  - intros d Hin. simpl in Hin.
    repeat (destruct Hin as [<- | Hin]; [reflexivity|]).
    destruct Hin.
Qed.

(** ** Unique ids *)

Section Lists.

Context {A B : Type}.

Lemma map_flat_map (g : A -> B) {X : Type} (f : X -> list A) (l : list X) :
  List.map g (List.flat_map f l) = List.flat_map (fun x => List.map g (f x)) l.
Proof.
  induction l as [|x l IH]; simpl; [reflexivity|].
  rewrite List.map_app, IH. reflexivity.
Qed.

Lemma NoDup_map_inj_on (f : A -> B) (l : list A) :
  List.NoDup (List.map f l) ->
  forall x y, In x l -> In y l -> f x = f y -> x = y.
Proof.
  induction l as [|a l IH]; simpl; intros Hnd x y Hx Hy Hxy; [destruct Hx|].
  inversion Hnd as [|? ? Hnotin Hnd']; subst.
  destruct Hx as [-> | Hx], Hy as [-> | Hy].
  - reflexivity.
  - exfalso. apply Hnotin. rewrite Hxy. apply List.in_map. exact Hy.
  - exfalso. apply Hnotin. rewrite <- Hxy. apply List.in_map. exact Hx.
  - apply IH; assumption.
Qed.

Lemma NoDup_flat_map_disjoint (f : A -> list B) (l : list A) :
  List.NoDup l ->
  (forall x, In x l -> List.NoDup (f x)) ->
  (forall x y b, In x l -> In y l -> In b (f x) -> In b (f y) -> x = y) ->
  List.NoDup (List.flat_map f l).
Proof.
  induction l as [|a l IH]; simpl; intros Hnd Hpiece Hcross; [constructor|].
  inversion Hnd as [|? ? Hnotin Hnd']; subst.
  apply List.NoDup_app.
  - apply Hpiece. left. reflexivity.
  - apply IH; [exact Hnd'| |]; intros; eauto.
  - intros b Hb Hb'. apply in_flat_map in Hb' as (y & Hy & Hby).
    assert (a = y) by (apply (Hcross a y b); auto).
    subst y. contradiction.
Qed.

End Lists.

Lemma all_chars_string_of_uint (d : Decimal.uint) :
  Str.all_chars Str.is_int_char (NilEmpty.string_of_uint d) = true.
Proof. induction d; simpl; auto. Qed.

Lemma all_chars_str_int (z : Z) : Str.all_chars Str.is_int_char (Py.str_int z) = true.
Proof.
  unfold Py.str_int, NilEmpty.string_of_int.
  destruct (Z.to_int z); simpl; apply all_chars_string_of_uint.
Qed.

Lemma str_int_inj (z z' : Z) : Py.str_int z = Py.str_int z' -> z = z'.
Proof.
  unfold Py.str_int. intros H. apply DecimalZ.to_int_inj.
  assert (Some (Z.to_int z) = Some (Z.to_int z')) as [= ->]; [|reflexivity].
  rewrite <- !NilEmpty.isi. rewrite H. reflexivity.
Qed.

(** A string of sign and digits followed by an underscore ends at that
    underscore: the two parts of ["{num}_{key}"] can be recovered. *)
Lemma split_at_underscore (s1 s2 k1 k2 : string) :
  Str.all_chars Str.is_int_char s1 = true ->
  Str.all_chars Str.is_int_char s2 = true ->
  s1 +:+ "_" +:+ k1 = s2 +:+ "_" +:+ k2 ->
  s1 = s2 /\ k1 = k2.
Proof.
  revert s2. induction s1 as [|a s1 IH]; intros [|b s2]; simpl; intros H1 H2 Heq.
  - injection Heq as Hk. auto.
  - injection Heq as Hb _. subst b. discriminate H2.
  - injection Heq as Ha _. subst a. discriminate H1.
  - injection Heq as Hab Heq. subst b.
    apply andb_prop in H1 as [_ H1]. apply andb_prop in H2 as [_ H2].
    destruct (IH s2 H1 H2 Heq) as [Hs Hk]. subst. auto.
Qed.

Lemma global_keys_distinct :
  List.NoDup (List.map Sensor.key Sensor.GLOBAL_SENSORS).
Proof. simpl. repeat constructor; simpl; intuition discriminate. Qed.

Lemma port_keys_distinct :
  List.NoDup (List.map Sensor.key Sensor.PORT_SENSORS).
Proof. simpl. repeat constructor; simpl; intuition discriminate. Qed.

(** No key of [GLOBAL_SENSORS] reads like ["{num}_{key}"]. *)
Lemma global_key_is_no_port_suffix (d : Sensor.MikrotikSwitchOSEntityDescription)
    (s k : string) :
  In d Sensor.GLOBAL_SENSORS ->
  Str.all_chars Str.is_int_char s = true ->
  Sensor.key d <> s +:+ "_" +:+ k.
Proof.
  intros Hin Hs Heq. simpl in Hin.
  repeat (destruct Hin as [<- | Hin];
          [destruct s as [|a s]; simpl in Heq, Hs;
           [discriminate Heq | injection Heq as <- _; discriminate Hs]|]).
  destruct Hin.
Qed.

Lemma append_inv_head (s a b : string) : s +:+ a = s +:+ b -> a = b.
Proof.
  induction s as [|x s IH]; simpl; intros H; [exact H|].
  injection H as H. auto.
Qed.

Section UniqueIds.

Variable c : MikrotikSwitchOSCoordinator.

Lemma global_ids_distinct :
  List.NoDup (List.map Sensor.unique_id (Sensor.global_entities c)).
Proof.
  unfold Sensor.global_entities. rewrite map_flat_map.
  apply NoDup_flat_map_disjoint.
  - apply (NoDup_map_inv Sensor.key), global_keys_distinct.
  - intros d _. destruct (Sensor._global_entity_exists d (api c)); simpl;
      repeat constructor; simpl; tauto.
  - intros d d' b Hd Hd' Hb Hb'.
    destruct (Sensor._global_entity_exists d (api c)); [|destruct Hb].
    destruct (Sensor._global_entity_exists d' (api c)); [|destruct Hb'].
    simpl in Hb, Hb'. destruct Hb as [<- | []]. destruct Hb' as [Heq | []].
    apply append_inv_head in Heq. simpl in Heq. injection Heq as Heq.
    apply (NoDup_map_inj_on Sensor.key Sensor.GLOBAL_SENSORS global_keys_distinct);
      auto.
Qed.

Lemma in_port_ids (u : string) :
  In u (List.map Sensor.unique_id (Sensor.port_entities c)) ->
  exists d p,
    In d Sensor.PORT_SENSORS /\ In p (ports (api c)) /\
    u = serial_num c +:+ "_" +:+ Py.str_int (num p) +:+ "_" +:+ Sensor.key d.
Proof.
  intros Hin. apply in_map_iff in Hin as (e & <- & Hin).
  apply in_port_entities in Hin as (d & p & Hd & Hp & _ & ->).
  exists d, p. auto.
Qed.

Lemma in_global_ids (u : string) :
  In u (List.map Sensor.unique_id (Sensor.global_entities c)) ->
  exists d,
    In d Sensor.GLOBAL_SENSORS /\ u = serial_num c +:+ "_" +:+ Sensor.key d.
Proof.
  intros Hin. apply in_map_iff in Hin as (e & <- & Hin).
  apply in_global_entities in Hin as (d & Hd & _ & ->).
  exists d. auto.
Qed.

Lemma port_id_inv (d d' : Sensor.MikrotikSwitchOSEntityDescription) (p p' : Port) :
  serial_num c +:+ "_" +:+ Py.str_int (num p) +:+ "_" +:+ Sensor.key d =
  serial_num c +:+ "_" +:+ Py.str_int (num p') +:+ "_" +:+ Sensor.key d' ->
  num p = num p' /\ Sensor.key d = Sensor.key d'.
Proof.
  intros Heq. apply append_inv_head in Heq. simpl in Heq. injection Heq as Heq.
  apply split_at_underscore in Heq as [Hn Hk]; try apply all_chars_str_int.
  split; [apply str_int_inj; exact Hn | exact Hk].
Qed.

Lemma port_ids_distinct :
  List.NoDup (List.map num (ports (api c))) ->
  List.NoDup (List.map Sensor.unique_id (Sensor.port_entities c)).
Proof.
  intros Hports. unfold Sensor.port_entities. rewrite map_flat_map.
  apply NoDup_flat_map_disjoint.
  - apply (NoDup_map_inv Sensor.key), port_keys_distinct.
  - intros d _. rewrite map_flat_map. apply NoDup_flat_map_disjoint.
    + apply (NoDup_map_inv num), Hports.
    + intros p _. destruct (Sensor._port_entity_exists d (api c) p); simpl;
        repeat constructor; simpl; tauto.
    + intros p p' b Hp Hp' Hb Hb'.
      destruct (Sensor._port_entity_exists d (api c) p); [|destruct Hb].
      destruct (Sensor._port_entity_exists d (api c) p'); [|destruct Hb'].
      simpl in Hb, Hb'. destruct Hb as [<- | []]. destruct Hb' as [Heq | []].
      apply port_id_inv in Heq as [Hn _].
      apply (NoDup_map_inj_on num (ports (api c)) Hports); auto.
  - intros d d' b Hd Hd' Hb Hb'.
    apply in_map_iff in Hb as (e & <- & Hb).
    apply in_map_iff in Hb' as (e' & Heq & Hb').
    apply in_flat_map in Hb as (p & Hp & Hb).
    apply in_flat_map in Hb' as (p' & Hp' & Hb').
    destruct (Sensor._port_entity_exists d (api c) p); [|destruct Hb].
    destruct (Sensor._port_entity_exists d' (api c) p'); [|destruct Hb'].
    destruct Hb as [<- | []]. destruct Hb' as [<- | []]. simpl in Heq.
    apply port_id_inv in Heq as [_ Hk].
    apply (NoDup_map_inj_on Sensor.key Sensor.PORT_SENSORS port_keys_distinct);
      auto.
Qed.

Lemma created_ids_distinct :
  List.NoDup (List.map num (ports (api c))) ->
  List.NoDup (List.map Sensor.unique_id (Init.created c)).
Proof.
  intros Hports. rewrite created_eq, List.map_app. apply List.NoDup_app.
  - apply global_ids_distinct.
  - apply port_ids_distinct, Hports.
  - intros u Hg Hp.
    apply in_global_ids in Hg as (d & Hd & ->).
    apply in_port_ids in Hp as (d' & p & _ & _ & Heq).
    apply append_inv_head in Heq. simpl in Heq. injection Heq as Heq.
    exact (global_key_is_no_port_suffix d _ _ Hd (all_chars_str_int (num p)) Heq).
Qed.

End UniqueIds.

(** C10.  The entities created by one run of the setup carry pairwise
    distinct unique ids, provided the port numbers of the snapshot are
    distinct: a global sensor gets ["{serial}_{key}"], a port sensor
    ["{serial}_{port_num}_{key}"], the list of ids has no repetition, and two
    created entities with the same id are the same entity. *)
Theorem created_entities_have_distinct_unique_ids (c : MikrotikSwitchOSCoordinator) :
  List.NoDup (List.map num (ports (api c))) ->
  (forall e, In e (Init.created c) ->
     match e with
     | Sensor.GlobalEntity s =>
         Sensor.unique_id e =
         serial_num c +:+ "_" +:+ Sensor.key (Sensor.entity_description s)
     | Sensor.PortEntity s =>
         Sensor.unique_id e =
         serial_num c +:+ "_" +:+ Py.str_int (num (Sensor.port s)) +:+ "_" +:+
         Sensor.key (Sensor.entity_description (Sensor.base s))
     end) /\
  List.NoDup (List.map Sensor.unique_id (Init.created c)) /\
  (forall e e',
     In e (Init.created c) -> In e' (Init.created c) ->
     Sensor.unique_id e = Sensor.unique_id e' -> e = e').
Proof.
  intros Hports. split; [|split].
  - intros e Hin. rewrite created_eq in Hin. apply in_app_or in Hin as [Hin | Hin].
    + apply in_global_entities in Hin as (d & _ & _ & ->). reflexivity.
    + apply in_port_entities in Hin as (d & p & _ & _ & _ & ->). reflexivity.
  - apply created_ids_distinct, Hports.
  - apply NoDup_map_inj_on, created_ids_distinct, Hports.
Qed.

Lemma created_entities_have_distinct_unique_ids_witness :
  List.NoDup
    (List.map Sensor.unique_id (Init.created (Sample.coordinator_of Sample.poe_switch))).
Proof.
  apply (created_entities_have_distinct_unique_ids (Sample.coordinator_of Sample.poe_switch)).
  simpl. repeat constructor; simpl; lia.
Defined.

(** ** Single flight *)

Lemma run_app (s : Polling.State) (xs ys : list Polling.Input) :
  Polling.run s (xs ++ ys) = Polling.run (Polling.run s xs) ys.
Proof. unfold Polling.run. apply List.fold_left_app. Qed.

Lemma step_one_outstanding (s : Polling.State) (i : Polling.Input) :
  Polling.one_outstanding s -> Polling.one_outstanding (Polling.step s i).
Proof.
  unfold Polling.one_outstanding, Polling.completed. intros H.
  destruct i as [caller | r | o | o]; simpl;
    unfold Polling.refresh_now, Polling.fetch_done, Polling.set_observers; simpl;
    destruct (Polling.in_flight s) eqn:E; simpl in *; rewrite ?E; lia.
Qed.

Lemma at_most_one_fetch_in_flight (schedule : list Polling.Input) :
  Polling.one_outstanding (Polling.run Polling.init schedule).
Proof.
  induction schedule as [|i schedule IH] using List.rev_ind.
  - reflexivity.
  - rewrite run_app. simpl. apply step_one_outstanding, IH.
Qed.

(** C2.  Two refresh triggers that race, the second arriving while the
    fetch started by the first is still in flight, cause exactly one fetch to
    the Remote Data Source; when that fetch completes, both callers receive
    its result and the count of fetches is still one more than before. *)
Theorem concurrent_triggers_share_one_fetch
    (s : Polling.State) (a b : Polling.Caller) (r : Polling.Outcome) :
  Polling.in_flight s = false ->
  let racing := Polling.run s [Polling.Trigger a; Polling.Trigger b] in
  let done := Polling.run s [Polling.Trigger a; Polling.Trigger b; Polling.FetchDone r] in
  Polling.fetches racing = S (Polling.fetches s) /\
  Polling.in_flight racing = true /\
  Polling.joined racing = [a; b] /\
  Polling.fetches done = S (Polling.fetches s) /\
  Polling.in_flight done = false /\
  Polling.delivered done = Polling.delivered s ++ [(a, r); (b, r)].
Proof.
  intros Hidle racing done. subst racing done.
  unfold Polling.run. simpl.
  unfold Polling.fetch_done, Polling.refresh_now. rewrite Hidle. simpl.
  repeat split; reflexivity.
Qed.

Lemma concurrent_triggers_share_one_fetch_witness :
  Polling.fetches
    (Polling.run Polling.init
       [Polling.Trigger Polling.Timer; Polling.Trigger (Polling.Manual 0);
        Polling.FetchDone (inr Sample.poe_switch)]) = 1%nat /\
  Polling.delivered
    (Polling.run Polling.init
       [Polling.Trigger Polling.Timer; Polling.Trigger (Polling.Manual 0);
        Polling.FetchDone (inr Sample.poe_switch)]) =
  [(Polling.Timer, inr Sample.poe_switch); (Polling.Manual 0, inr Sample.poe_switch)].
Proof.
  destruct (concurrent_triggers_share_one_fetch Polling.init Polling.Timer
              (Polling.Manual 0) (inr Sample.poe_switch) eq_refl)
    as (_ & _ & _ & Hfetches & _ & Hdelivered).
  split; [exact Hfetches | exact Hdelivered].
Defined.

(** * Further properties of the sensor platform *)

(** ** Existence check and read agree *)

(** X1.  For a global sensor the registration check and the read agree on
    every snapshot: either the check passes and the read returns a value
    other than [None], or the check fails and the read returns [None], or the
    check fails and the read raises [AttributeError] for the attribute that
    is missing.  In each case the coordinator is left as it was. *)
Theorem global_check_and_read_agree :
  forall (c : MikrotikSwitchOSCoordinator) (dev : Sensor.DeviceInfo)
         (d : Sensor.MikrotikSwitchOSEntityDescription),
    let s := Sensor.MikrotikSwitchOSSensor_init c dev d in
    (Sensor._global_entity_exists d (api c) = true /\
     exists v, v <> Py.VNone /\ Sensor.native_value s c = (Py.ok v, c)) \/
    (Sensor._global_entity_exists d (api c) = false /\
     Sensor.native_value s c = (Py.ok Py.VNone, c)) \/
    (Sensor._global_entity_exists d (api c) = false /\
     ((api_attr (api c) (Sensor.endpoint d) = None /\
       Sensor.native_value s c = (Py.raise (Py.AttributeError (Sensor.endpoint d)), c)) \/
      (exists ep,
         api_attr (api c) (Sensor.endpoint d) = Some ep /\
         Py.attr ep (Sensor.property d) = None /\
         Sensor.native_value s c = (Py.raise (Py.AttributeError (Sensor.property d)), c)))).
Proof.
  intros c dev d s. subst s. rewrite native_value_run. simpl.
  unfold Sensor._global_entity_exists. rewrite selector_default.
  destruct (api_attr (api c) (Sensor.endpoint d)) as [ep|] eqn:Eep.
  - destruct (Py.attr ep (Sensor.property d)) as [v|] eqn:Ev.
    + destruct (Py.is_not_None v) eqn:Hv.
      * left. split; [reflexivity|]. exists v.
        split; [apply is_not_None_true; exact Hv | reflexivity].
      * right. left. destruct v; try discriminate Hv. auto.
    + right. right. split; [reflexivity|]. right. exists ep. auto.
  - right. right. split; [reflexivity|]. left. auto.
Qed.

(** ** How a port sensor read can fail *)

Lemma seq_index_error {A : Type} (l : list A) (i : Z) (e : Py.exn) :
  Py.seq_index l i = Py.raise e ->
  e = Py.IndexError /\
  (Z.of_nat (List.length l) <= i \/ i < - Z.of_nat (List.length l)).
Proof.
  unfold Py.seq_index.
  destruct (Z.ltb_spec i 0) as [Hneg|Hpos].
  - destruct (Z.leb_spec 0 (i + Z.of_nat (List.length l))) as [Hlo|Hlo]; simpl.
    + destruct (Z.ltb_spec (i + Z.of_nat (List.length l)) (Z.of_nat (List.length l)));
        [|lia].
      destruct (nth_error l (Z.to_nat (i + Z.of_nat (List.length l)))) eqn:E;
        [discriminate|].
      apply nth_error_None in E. lia.
    + intros [= <-]. split; [reflexivity | lia].
  - destruct (Z.leb_spec 0 i); [|lia]. simpl.
    destruct (Z.ltb_spec i (Z.of_nat (List.length l))) as [Hlt|Hge].
    + destruct (nth_error l (Z.to_nat i)) eqn:E; [discriminate|].
      apply nth_error_None in E. lia.
    + intros [= <-]. split; [reflexivity | lia].
Qed.

Lemma subscript_error (arr : Py.value) (i : Z) (e : Py.exn) :
  Py.subscript arr i = Py.raise e ->
  (e = Py.TypeError /\ Py.len arr = Py.raise Py.TypeError) \/
  (e = Py.IndexError /\ exists n, Py.len arr = Py.ok n /\ (n <= i \/ i < - n)).
Proof.
  destruct arr; simpl; intros H;
    try (left; injection H as <-; split; reflexivity);
    right; apply seq_index_error in H as [-> Hrange];
    (split; [reflexivity|]); eexists; (split; [reflexivity|]).
  - rewrite length_chars in Hrange. exact Hrange.
  - exact Hrange.
  - exact Hrange.
Qed.

(** X2.  A port sensor read fails in exactly four ways, and never touches
    the coordinator: [AttributeError] for a missing endpoint attribute,
    [AttributeError] for a property missing on the endpoint (which includes an
    endpoint that is [None]), [TypeError] when the selected value has no
    length, and [IndexError] when the port index lies outside the selected
    sequence. *)
Theorem port_read_failure_modes
    (s : Sensor.MikrotikSwitchOSPortSensor) (c : MikrotikSwitchOSCoordinator)
    (e : Py.exn) :
  fst (Sensor.port_native_value s c) = Py.raise e ->
  let d := Sensor.entity_description (Sensor.base s) in
  snd (Sensor.port_native_value s c) = c /\
  ((e = Py.AttributeError (Sensor.endpoint d) /\
    api_attr (api c) (Sensor.endpoint d) = None) \/
   (e = Py.AttributeError (Sensor.property d) /\
    exists ep,
      api_attr (api c) (Sensor.endpoint d) = Some ep /\
      Py.attr ep (Sensor.property d) = None) \/
   (e = Py.TypeError /\
    exists ep arr,
      api_attr (api c) (Sensor.endpoint d) = Some ep /\
      Py.attr ep (Sensor.property d) = Some arr /\
      Py.len arr = Py.raise Py.TypeError) \/
   (e = Py.IndexError /\
    exists ep arr n,
      api_attr (api c) (Sensor.endpoint d) = Some ep /\
      Py.attr ep (Sensor.property d) = Some arr /\
      Py.len arr = Py.ok n /\
      (n <= num (Sensor.port s) \/ num (Sensor.port s) < - n))).
Proof.
  rewrite port_native_value_run. simpl. intros H. split; [reflexivity|].
  destruct (api_attr (api c) (Sensor.endpoint (Sensor.entity_description (Sensor.base s))))
    as [ep|] eqn:Eep.
  - destruct (Py.attr ep (Sensor.property (Sensor.entity_description (Sensor.base s))))
      as [arr|] eqn:Earr.
    + apply subscript_error in H as [[-> Hlen] | [-> (n & Hlen & Hrange)]].
      * right. right. left. split; [reflexivity|]. exists ep, arr. auto.
      * right. right. right. split; [reflexivity|]. exists ep, arr, n. auto.
    + right. left. injection H as <-. split; [reflexivity|]. exists ep. auto.
  - left. injection H as <-. auto.
Qed.

Lemma port_read_failure_modes_witness :
  snd (Sensor.port_native_value Sample.poe_power_port3
         (Sample.coordinator_of Sample.plain_switch)) =
  Sample.coordinator_of Sample.plain_switch.
Proof.
  apply (port_read_failure_modes Sample.poe_power_port3
           (Sample.coordinator_of Sample.plain_switch)
           (Py.AttributeError "power")).
  reflexivity.
Defined.

(** X3.  The registration check compares only from above.  For a port
    number below zero it passes whenever the selected value is a list or
    tuple, even an empty one; the read then counts from the end of the
    sequence, and raises [IndexError] when the sequence is shorter than the
    number is negative. *)
Theorem negative_port_number_passes_check
    (d : Sensor.MikrotikSwitchOSEntityDescription) (c : MikrotikSwitchOSCoordinator)
    (dev : Sensor.DeviceInfo) (p : Port) (ep : Py.value) (items : list Py.value) :
  api_attr (api c) (Sensor.endpoint d) = Some ep ->
  (Py.attr ep (Sensor.property d) = Some (Py.VList items) \/
   Py.attr ep (Sensor.property d) = Some (Py.VTuple items)) ->
  num p < 0 ->
  Sensor._port_entity_exists d (api c) p = true /\
  (num p < - Z.of_nat (List.length items) ->
   Sensor.port_native_value (Sensor.MikrotikSwitchOSPortSensor_init c dev d p) c =
     (Py.raise Py.IndexError, c)) /\
  (- Z.of_nat (List.length items) <= num p ->
   forall x,
     nth_error items (Z.to_nat (num p + Z.of_nat (List.length items))) = Some x ->
     Sensor.port_native_value (Sensor.MikrotikSwitchOSPortSensor_init c dev d p) c =
       (Py.ok x, c)).
Proof.
  intros Hep Harr Hneg. split; [|split].
  - apply port_entity_exists_iff. exists ep, items. repeat split; auto; lia.
  - intros Hlow. rewrite port_native_value_run. simpl. rewrite Hep.
    assert (Hidx : Py.seq_index items (num p) = Py.raise Py.IndexError).
    { unfold Py.seq_index.
      destruct (Z.ltb_spec (num p) 0); [|lia].
      destruct (Z.leb_spec 0 (num p + Z.of_nat (List.length items))); [lia|].
      reflexivity. }
    destruct Harr as [-> | ->]; simpl; rewrite Hidx; reflexivity.
  - intros Hhigh x Hx. rewrite port_native_value_run. simpl. rewrite Hep.
    assert (Hidx : Py.seq_index items (num p) = Py.ok x).
    { unfold Py.seq_index.
      destruct (Z.ltb_spec (num p) 0); [|lia].
      destruct (Z.leb_spec 0 (num p + Z.of_nat (List.length items))); [|lia].
      destruct (Z.ltb_spec (num p + Z.of_nat (List.length items))
                  (Z.of_nat (List.length items))); [|lia].
      simpl. rewrite Hx. reflexivity. }
    destruct Harr as [-> | ->]; simpl; rewrite Hidx; reflexivity.
Qed.

Lemma negative_port_number_passes_check_witness :
  Sensor._port_entity_exists Sample.poe_power Entities.odd_switch
    {| num := -3; name := "Odd" |} = true /\
  Sensor.port_native_value Entities.odd_sensor (Sample.coordinator_of Entities.odd_switch) =
    (Py.raise Py.IndexError, Sample.coordinator_of Entities.odd_switch).
Proof.
  destruct (negative_port_number_passes_check Sample.poe_power
              (Sample.coordinator_of Entities.odd_switch)
              (Sensor.make_device (Sample.coordinator_of Entities.odd_switch))
              {| num := -3; name := "Odd" |}
              (Py.VObj (<["power" := Py.VList [Py.VInt 5; Py.VInt 6]]> ∅))
              [Py.VInt 5; Py.VInt 6])
    as (Hcheck & Hraise & _).
  - reflexivity.
  - left. reflexivity.
  - simpl. lia.
  - split; [exact Hcheck | apply Hraise; simpl; lia].
Defined.

(** X4.  A port sensor that was registered keeps reading as long as the
    selected sequence does not get shorter: if the port index is not negative
    and a later snapshot selects a list or tuple at least as long as the one
    the first snapshot held, the read on the later snapshot returns the
    element at the port's index. *)
Theorem registered_port_sensor_reads_while_array_keeps_length
    (c : MikrotikSwitchOSCoordinator) (later : MikrotikSwitchOSData)
    (s : Sensor.MikrotikSwitchOSPortSensor)
    (ep ep' : Py.value) (first_items later_items : list Py.value) :
  In (Sensor.PortEntity s) (Init.created c) ->
  0 <= num (Sensor.port s) ->
  let d := Sensor.entity_description (Sensor.base s) in
  api_attr (api c) (Sensor.endpoint d) = Some ep ->
  (Py.attr ep (Sensor.property d) = Some (Py.VList first_items) \/
   Py.attr ep (Sensor.property d) = Some (Py.VTuple first_items)) ->
  api_attr later (Sensor.endpoint d) = Some ep' ->
  (Py.attr ep' (Sensor.property d) = Some (Py.VList later_items) \/
   Py.attr ep' (Sensor.property d) = Some (Py.VTuple later_items)) ->
  (List.length first_items <= List.length later_items)%nat ->
  exists x,
    nth_error later_items (Z.to_nat (num (Sensor.port s))) = Some x /\
    Sensor.port_native_value s (with_api c later) = (Py.ok x, with_api c later).
Proof.
  intros Hin Hpos d Hep Hfirst Hep' Hlater Hlen. subst d.
  assert (Hlt : num (Sensor.port s) < Z.of_nat (List.length first_items)).
  { rewrite created_eq in Hin. apply in_app_or in Hin as [Hin | Hin].
    - apply in_global_entities in Hin as (d0 & _ & _ & Heq). discriminate.
    - apply in_port_entities in Hin as (d0 & p0 & _ & _ & Hex & Heq).
      injection Heq as ->. simpl in *.
      apply port_entity_exists_iff in Hex as (ep0 & items0 & Hep0 & Harr0 & Hlt0).
      assert (items0 = first_items) by (destruct Hfirst, Harr0; congruence).
      subst items0. exact Hlt0. }
  destruct (nth_error later_items (Z.to_nat (num (Sensor.port s)))) as [x|] eqn:Ex.
  - exists x. split; [reflexivity|].
    rewrite port_native_value_run. simpl. rewrite Hep'.
    destruct Hlater as [-> | ->]; simpl;
      rewrite (seq_index_front later_items _ x Hpos Ex); reflexivity.
  - apply nth_error_None in Ex. lia.
Qed.

Lemma registered_port_sensor_reads_while_array_keeps_length_witness :
  exists x,
    nth_error Sample.watts 3 = Some x /\
    Sensor.port_native_value Sample.poe_power_port3
      (with_api (Sample.coordinator_of Sample.poe_switch) Sample.poe_switch) =
    (Py.ok x, with_api (Sample.coordinator_of Sample.poe_switch) Sample.poe_switch).
Proof.
  apply (registered_port_sensor_reads_while_array_keeps_length
           (Sample.coordinator_of Sample.poe_switch) Sample.poe_switch
           Sample.poe_power_port3
           (Py.VObj (<["power" := Py.VList Sample.watts]>
                       (<["current" := Py.VTuple Sample.watts]> ∅)))
           (Py.VObj (<["power" := Py.VList Sample.watts]>
                       (<["current" := Py.VTuple Sample.watts]> ∅)))
           Sample.watts Sample.watts).
  - exact port3_created.
  - simpl. lia.
  - reflexivity.
  - left. reflexivity.
  - reflexivity.
  - left. reflexivity.
  - simpl. lia.
Defined.

(** ** What a snapshot without an endpoint yields *)

Lemma no_object_no_selection (a : MikrotikSwitchOSData) (ep_name prop_name : string) :
  (forall attrs, api_attr a ep_name <> Some (Py.VObj attrs)) ->
  Py.getattr_default (api_getattr_default a ep_name Py.VNone) prop_name Py.VNone = Py.VNone.
Proof.
  intros Hno. rewrite selector_default.
  destruct (api_attr a ep_name) as [ep|]; [|reflexivity].
  destruct ep; try reflexivity. exfalso. eapply Hno. reflexivity.
Qed.

Lemma listed_global_endpoint (d : Sensor.MikrotikSwitchOSEntityDescription) :
  In d Sensor.GLOBAL_SENSORS -> Sensor.endpoint d = "sys".
Proof.
  intros Hin. simpl in Hin.
  repeat (destruct Hin as [<- | Hin]; [reflexivity|]). destruct Hin.
Qed.

Lemma listed_port_endpoint (d : Sensor.MikrotikSwitchOSEntityDescription) :
  In d Sensor.PORT_SENSORS -> Sensor.endpoint d = "poe".
Proof.
  intros Hin. simpl in Hin.
  repeat (destruct Hin as [<- | Hin]; [reflexivity|]). destruct Hin.
Qed.

Lemma port_entities_without_poe (c : MikrotikSwitchOSCoordinator) :
  (forall attrs, api_attr (api c) "poe" <> Some (Py.VObj attrs)) ->
  Sensor.port_entities c = [].
Proof.
  intros Hno.
  destruct (Sensor.port_entities c) as [|e rest] eqn:E; [reflexivity|exfalso].
  assert (Hin : In e (Sensor.port_entities c)) by (rewrite E; left; reflexivity).
  apply in_port_entities in Hin as (d & p & Hd & _ & Hex & _).
  unfold Sensor._port_entity_exists in Hex.
  rewrite (listed_port_endpoint d Hd) in Hex.
  rewrite (no_object_no_selection _ _ _ Hno) in Hex. discriminate Hex.
Qed.

Lemma global_entities_without_sys (c : MikrotikSwitchOSCoordinator) :
  (forall attrs, api_attr (api c) "sys" <> Some (Py.VObj attrs)) ->
  Sensor.global_entities c = [].
Proof.
  intros Hno.
  destruct (Sensor.global_entities c) as [|e rest] eqn:E; [reflexivity|exfalso].
  assert (Hin : In e (Sensor.global_entities c)) by (rewrite E; left; reflexivity).
  apply in_global_entities in Hin as (d & Hd & Hex & _).
  unfold Sensor._global_entity_exists in Hex.
  rewrite (listed_global_endpoint d Hd) in Hex.
  rewrite (no_object_no_selection _ _ _ Hno) in Hex. discriminate Hex.
Qed.

(** X5.  A switch without PoE gets no port sensor, however many ports the
    snapshot lists: when [poe] of the first snapshot is missing, [None] or
    anything but an object, the setup creates global entities only.
    Likewise, without a [sys] object it creates no global entity. *)
Theorem no_endpoint_no_entities (c : MikrotikSwitchOSCoordinator) :
  ((forall attrs, api_attr (api c) "poe" <> Some (Py.VObj attrs)) ->
   Sensor.port_entities c = [] /\
   Init.created c = Sensor.global_entities c) /\
  ((forall attrs, api_attr (api c) "sys" <> Some (Py.VObj attrs)) ->
   Sensor.global_entities c = [] /\
   Init.created c = Sensor.port_entities c).
Proof.
  split; intros Hno.
  - pose proof (port_entities_without_poe c Hno) as Hnil.
    split; [exact Hnil|]. rewrite created_eq, Hnil. apply List.app_nil_r.
  - pose proof (global_entities_without_sys c Hno) as Hnil.
    split; [exact Hnil|]. rewrite created_eq, Hnil. reflexivity.
Qed.

(** ** How many entities a setup creates *)

Lemma length_flat_map_guard {X Y : Type} (guard : X -> bool) (make : X -> Y) (l : list X) :
  (List.length (List.flat_map (fun x => if guard x then [make x] else []) l)
   <= List.length l)%nat.
Proof.
  induction l as [|x l IH]; simpl; [lia|].
  destruct (guard x); simpl; lia.
Qed.

Lemma length_flat_map_bound {X Y : Type} (f : X -> list Y) (k : nat) (l : list X) :
  (forall x, (List.length (f x) <= k)%nat) ->
  (List.length (List.flat_map f l) <= k * List.length l)%nat.
Proof.
  intros Hk. induction l as [|x l IH]; simpl; [lia|].
  rewrite List.length_app. specialize (Hk x). lia.
Qed.

Lemma length_flat_map_all {X Y : Type} (guard : X -> bool) (make : X -> Y) (l : list X) :
  (forall x, In x l -> guard x = true) ->
  List.length (List.flat_map (fun x => if guard x then [make x] else []) l)
  = List.length l.
Proof.
  induction l as [|x l IH]; simpl; intros Hall; [reflexivity|].
  rewrite (Hall x) by auto. simpl. rewrite IH by auto. reflexivity.
Qed.

(** X6.  One setup creates at most eight global entities and at most three
    entities per port; it creates exactly three per port when each of the
    three PoE arrays is a list or tuple longer than every port number. *)
Theorem created_entities_count (c : MikrotikSwitchOSCoordinator) :
  (List.length (Sensor.global_entities c) <= 8)%nat /\
  (List.length (Sensor.port_entities c) <= 3 * List.length (ports (api c)))%nat /\
  (List.length (Init.created c) <= 8 + 3 * List.length (ports (api c)))%nat /\
  ((forall d p, In d Sensor.PORT_SENSORS -> In p (ports (api c)) ->
      Sensor._port_entity_exists d (api c) p = true) ->
   List.length (Sensor.port_entities c) = (3 * List.length (ports (api c)))%nat).
Proof.
  assert (Hg : (List.length (Sensor.global_entities c) <= 8)%nat).
  { unfold Sensor.global_entities.
    etransitivity; [apply length_flat_map_guard|]. simpl. lia. }
  assert (Hp : (List.length (Sensor.port_entities c)
                <= 3 * List.length (ports (api c)))%nat).
  { unfold Sensor.port_entities.
    etransitivity;
      [apply (length_flat_map_bound _ (List.length (ports (api c))));
       intros d; apply length_flat_map_guard|].
    simpl. lia. }
  split; [exact Hg|]. split; [exact Hp|]. split.
  - rewrite created_eq, List.length_app. lia.
  - intros Hall. unfold Sensor.port_entities. simpl. rewrite !List.length_app. simpl.
    rewrite !length_flat_map_all; [lia| | |];
      intros p Hp'; apply Hall; simpl; auto.
Qed.

(** ** Enabled by default, over everything a setup creates *)

Lemma global_default_by_key (c : MikrotikSwitchOSCoordinator) (dev : Sensor.DeviceInfo)
    (d : Sensor.MikrotikSwitchOSEntityDescription) :
  In d Sensor.GLOBAL_SENSORS ->
  Sensor.entity_registry_enabled_default (Sensor.MikrotikSwitchOSSensor_init c dev d) c =
  (if String.eqb (Sensor.key d) "cpu_temperature" then Py.ok true
   else Sensor.poe_is_not_None (api c), c).
Proof.
  intros Hin. rewrite enabled_default_run. simpl in Hin.
  repeat (destruct Hin as [<- | Hin]; [reflexivity|]). destruct Hin.
Qed.

Lemma port_default_enabled (c : MikrotikSwitchOSCoordinator) (dev : Sensor.DeviceInfo)
    (d : Sensor.MikrotikSwitchOSEntityDescription) (p : Port) :
  In d Sensor.PORT_SENSORS ->
  Sensor.entity_registry_enabled_default
    (Sensor.base (Sensor.MikrotikSwitchOSPortSensor_init c dev d p)) c = (Py.ok true, c).
Proof.
  intros Hin. rewrite enabled_default_run. simpl in Hin.
  repeat (destruct Hin as [<- | Hin]; [reflexivity|]). destruct Hin.
Qed.

(** X7.  The default-enabled flags of the entities a setup creates, read
    on the snapshot they were created from.  With [poe] present every created
    entity is enabled.  With [poe] equal to [None] only global entities
    exist, and of those only the CPU temperature is enabled.  With no [poe]
    attribute at all, reading the flag of a PSU or total-power sensor raises
    [AttributeError] instead of answering. *)
Theorem created_entities_default_enabled (c : MikrotikSwitchOSCoordinator) :
  (forall v, api_attr (api c) "poe" = Some v -> v <> Py.VNone ->
     forall e, In e (Init.created c) ->
       Entities.enabled_default e c = (Py.ok true, c)) /\
  (api_attr (api c) "poe" = Some Py.VNone ->
     forall e, In e (Init.created c) ->
       exists s,
         e = Sensor.GlobalEntity s /\
         Entities.enabled_default e c =
           (Py.ok (String.eqb (Sensor.key (Sensor.entity_description s)) "cpu_temperature"),
            c)) /\
  (api_attr (api c) "poe" = None ->
     forall e, In e (Init.created c) ->
       exists s,
         e = Sensor.GlobalEntity s /\
         Entities.enabled_default e c =
           (if String.eqb (Sensor.key (Sensor.entity_description s)) "cpu_temperature"
            then Py.ok true else Py.raise (Py.AttributeError "poe"),
            c)).
Proof.
  split; [|split].
  - intros v Hpoe Hv e Hin. rewrite created_eq in Hin.
    apply in_app_or in Hin as [Hin | Hin].
    + apply in_global_entities in Hin as (d & Hd & _ & ->). simpl.
      rewrite (global_default_by_key c _ d Hd), poe_is_not_None_run, Hpoe.
      apply is_not_None_true in Hv. rewrite Hv.
      destruct (String.eqb (Sensor.key d) "cpu_temperature"); reflexivity.
    + apply in_port_entities in Hin as (d & p & Hd & _ & _ & ->).
      exact (port_default_enabled c (Sensor.make_device c) d p Hd).
  - intros Hpoe e Hin. rewrite created_eq, port_entities_without_poe in Hin
      by (intros attrs; rewrite Hpoe; discriminate).
    rewrite List.app_nil_r in Hin.
    apply in_global_entities in Hin as (d & Hd & _ & ->).
    eexists. split; [reflexivity|]. simpl.
    rewrite (global_default_by_key c _ d Hd), poe_is_not_None_run, Hpoe. simpl.
    destruct (String.eqb (Sensor.key d) "cpu_temperature"); reflexivity.
  - intros Hpoe e Hin. rewrite created_eq, port_entities_without_poe in Hin
      by (intros attrs; rewrite Hpoe; discriminate).
    rewrite List.app_nil_r in Hin.
    apply in_global_entities in Hin as (d & Hd & _ & ->).
    eexists. split; [reflexivity|]. simpl.
    rewrite (global_default_by_key c _ d Hd), poe_is_not_None_run, Hpoe.
    reflexivity.
Qed.

(** ** Unique ids across devices *)

Lemma chars_of_append (a b : string) :
  list_ascii_of_string (a +:+ b) = list_ascii_of_string a ++ list_ascii_of_string b.
Proof. induction a as [|x a IH]; simpl; [reflexivity|]. rewrite IH. reflexivity. Qed.

Lemma chars_inj (a b : string) :
  list_ascii_of_string a = list_ascii_of_string b -> a = b.
Proof.
  intros H. rewrite <- (string_of_list_ascii_of_string a),
    <- (string_of_list_ascii_of_string b), H. reflexivity.
Qed.

Lemma rev_inj {X : Type} (l l' : list X) : List.rev l = List.rev l' -> l = l'.
Proof.
  intros H. rewrite <- (List.rev_involutive l), <- (List.rev_involutive l'), H.
  reflexivity.
Qed.

Lemma rev_around {X : Type} (l r : list X) (x : X) :
  List.rev (l ++ x :: r) = List.rev r ++ x :: List.rev l.
Proof. rewrite List.rev_app_distr. simpl. rewrite <- List.app_assoc. reflexivity. Qed.

Lemma all_chars_Forall (P : ascii -> bool) (s : string) :
  Str.all_chars P s = true -> List.Forall (fun a => P a = true) (list_ascii_of_string s).
Proof.
  induction s as [|a s IH]; simpl; intros H; [constructor|].
  apply andb_prop in H as [Ha Hs]. constructor; auto.
Qed.

(** The list form of [split_at_underscore]. *)
Lemma split_list_at_underscore (n1 n2 t1 t2 : list ascii) :
  List.Forall (fun a => Str.is_int_char a = true) n1 ->
  List.Forall (fun a => Str.is_int_char a = true) n2 ->
  n1 ++ "_"%char :: t1 = n2 ++ "_"%char :: t2 ->
  n1 = n2 /\ t1 = t2.
Proof.
  intros H1. revert n2. induction H1 as [|a n1 Ha _ IH]; intros n2 H2 Heq.
  - destruct H2 as [|b n2 Hb _]; simpl in Heq.
    + injection Heq as Ht. auto.
    + injection Heq as Hb' _. subst b. discriminate Hb.
  - destruct H2 as [|b n2 Hb H2]; simpl in Heq.
    + injection Heq as Ha' _. subst a. discriminate Ha.
    + injection Heq as Hab Heq. subst b.
      destruct (IH n2 H2 Heq) as [-> ->]. auto.
Qed.

(** An id read backwards starts with its key read backwards. *)
Lemma global_id_reversed (serial k : string) :
  List.rev (list_ascii_of_string (serial +:+ "_" +:+ k)) =
  List.rev (list_ascii_of_string k) ++ "_"%char :: List.rev (list_ascii_of_string serial).
Proof. rewrite chars_of_append. simpl. apply rev_around. Qed.

Lemma port_id_reversed (serial digits k : string) :
  List.rev (list_ascii_of_string (serial +:+ "_" +:+ digits +:+ "_" +:+ k)) =
  List.rev (list_ascii_of_string k) ++ "_"%char ::
  List.rev (list_ascii_of_string digits) ++ "_"%char ::
  List.rev (list_ascii_of_string serial).
Proof.
  rewrite !chars_of_append. simpl.
  rewrite rev_around, rev_around, <- List.app_assoc. reflexivity.
Qed.

Lemma global_keys_end_differently (d d' : Sensor.MikrotikSwitchOSEntityDescription)
    (t t' : list ascii) :
  In d Sensor.GLOBAL_SENSORS -> In d' Sensor.GLOBAL_SENSORS ->
  List.rev (list_ascii_of_string (Sensor.key d)) ++ "_"%char :: t =
  List.rev (list_ascii_of_string (Sensor.key d')) ++ "_"%char :: t' ->
  Sensor.key d = Sensor.key d' /\ t = t'.
Proof.
  intros Hd Hd' Heq. simpl in Hd, Hd'.
  repeat (destruct Hd as [<- | Hd]);
    try (destruct Hd);
    repeat (destruct Hd' as [<- | Hd']);
    try (destruct Hd');
    simpl in Heq; split; congruence.
Qed.

Lemma port_keys_end_differently (d d' : Sensor.MikrotikSwitchOSEntityDescription)
    (t t' : list ascii) :
  In d Sensor.PORT_SENSORS -> In d' Sensor.PORT_SENSORS ->
  List.rev (list_ascii_of_string (Sensor.key d)) ++ "_"%char :: t =
  List.rev (list_ascii_of_string (Sensor.key d')) ++ "_"%char :: t' ->
  Sensor.key d = Sensor.key d' /\ t = t'.
Proof.
  intros Hd Hd' Heq. simpl in Hd, Hd'.
  repeat (destruct Hd as [<- | Hd]);
    try (destruct Hd);
    repeat (destruct Hd' as [<- | Hd']);
    try (destruct Hd');
    simpl in Heq; split; congruence.
Qed.

Lemma global_and_port_keys_end_differently
    (d d' : Sensor.MikrotikSwitchOSEntityDescription) (t t' : list ascii) :
  In d Sensor.GLOBAL_SENSORS -> In d' Sensor.PORT_SENSORS ->
  List.rev (list_ascii_of_string (Sensor.key d)) ++ "_"%char :: t <>
  List.rev (list_ascii_of_string (Sensor.key d')) ++ "_"%char :: t'.
Proof.
  intros Hd Hd' Heq. simpl in Hd, Hd'.
  repeat (destruct Hd as [<- | Hd]);
    try (destruct Hd);
    repeat (destruct Hd' as [<- | Hd']);
    try (destruct Hd');
    simpl in Heq; congruence.
Qed.

Lemma global_ids_across_devices (serial serial' : string)
    (d d' : Sensor.MikrotikSwitchOSEntityDescription) :
  In d Sensor.GLOBAL_SENSORS -> In d' Sensor.GLOBAL_SENSORS ->
  serial +:+ "_" +:+ Sensor.key d = serial' +:+ "_" +:+ Sensor.key d' ->
  serial = serial' /\ Sensor.key d = Sensor.key d'.
Proof.
  intros Hd Hd' Heq.
  apply (f_equal (fun s => List.rev (list_ascii_of_string s))) in Heq.
  rewrite !global_id_reversed in Heq.
  apply (global_keys_end_differently d d' _ _ Hd Hd') in Heq as [Hk Hs].
  split; [apply chars_inj, rev_inj, Hs | exact Hk].
Qed.

Lemma port_ids_across_devices (serial serial' : string) (n n' : Z)
    (d d' : Sensor.MikrotikSwitchOSEntityDescription) :
  In d Sensor.PORT_SENSORS -> In d' Sensor.PORT_SENSORS ->
  serial +:+ "_" +:+ Py.str_int n +:+ "_" +:+ Sensor.key d =
  serial' +:+ "_" +:+ Py.str_int n' +:+ "_" +:+ Sensor.key d' ->
  serial = serial' /\ n = n' /\ Sensor.key d = Sensor.key d'.
Proof.
  intros Hd Hd' Heq.
  apply (f_equal (fun s => List.rev (list_ascii_of_string s))) in Heq.
  rewrite !port_id_reversed in Heq.
  apply (port_keys_end_differently d d' _ _ Hd Hd') in Heq as [Hk Heq].
  apply split_list_at_underscore in Heq as [Hn Hs];
    try (apply List.Forall_rev, all_chars_Forall, all_chars_str_int).
  split; [apply chars_inj, rev_inj, Hs|].
  split; [apply str_int_inj, chars_inj, rev_inj, Hn | exact Hk].
Qed.

Lemma global_and_port_ids_across_devices (serial serial' : string) (n' : Z)
    (d d' : Sensor.MikrotikSwitchOSEntityDescription) :
  In d Sensor.GLOBAL_SENSORS -> In d' Sensor.PORT_SENSORS ->
  serial +:+ "_" +:+ Sensor.key d <>
  serial' +:+ "_" +:+ Py.str_int n' +:+ "_" +:+ Sensor.key d'.
Proof.
  intros Hd Hd' Heq.
  apply (f_equal (fun s => List.rev (list_ascii_of_string s))) in Heq.
  rewrite global_id_reversed, port_id_reversed in Heq.
  exact (global_and_port_keys_end_differently d d' _ _ Hd Hd' Heq).
Qed.

(** X8.  Unique ids do not collide across devices either.  If an entity
    created for one coordinator and an entity created for another carry the
    same unique id, then the two serial numbers are equal, the two entities
    are of the same class with the same description key, and, for port
    sensors, the same port number; whatever characters the serial numbers
    contain. *)
Theorem unique_id_determines_device_and_sensor
    (c c' : MikrotikSwitchOSCoordinator) (e e' : Sensor.Entity) :
  In e (Init.created c) ->
  In e' (Init.created c') ->
  Sensor.unique_id e = Sensor.unique_id e' ->
  serial_num c = serial_num c' /\
  Sensor.key (Sensor.description_of e) = Sensor.key (Sensor.description_of e') /\
  match e, e' with
  | Sensor.GlobalEntity _, Sensor.GlobalEntity _ => True
  | Sensor.PortEntity s, Sensor.PortEntity s' =>
      num (Sensor.port s) = num (Sensor.port s')
  | _, _ => False
  end.
Proof.
  intros Hin Hin' Heq. rewrite created_eq in Hin, Hin'.
  apply in_app_or in Hin as [Hin | Hin]; apply in_app_or in Hin' as [Hin' | Hin'].
  - apply in_global_entities in Hin as (d & Hd & _ & ->).
    apply in_global_entities in Hin' as (d' & Hd' & _ & ->).
    simpl in *.
    destruct (global_ids_across_devices _ _ d d' Hd Hd' Heq) as [Hs Hk]. auto.
  - apply in_global_entities in Hin as (d & Hd & _ & ->).
    apply in_port_entities in Hin' as (d' & p' & Hd' & _ & _ & ->).
    simpl in *.
    destruct (global_and_port_ids_across_devices _ _ _ d d' Hd Hd' Heq).
  - apply in_port_entities in Hin as (d & p & Hd & _ & _ & ->).
    apply in_global_entities in Hin' as (d' & Hd' & _ & ->).
    simpl in *. symmetry in Heq.
    destruct (global_and_port_ids_across_devices _ _ _ d' d Hd' Hd Heq).
  - apply in_port_entities in Hin as (d & p & Hd & _ & _ & ->).
    apply in_port_entities in Hin' as (d' & p' & Hd' & _ & _ & ->).
    simpl in *.
    destruct (port_ids_across_devices _ _ _ _ d d' Hd Hd' Heq) as (Hs & Hn & Hk).
    auto.
Qed.

Lemma unique_id_determines_device_and_sensor_witness :
  serial_num (Sample.coordinator_of Sample.poe_switch) =
  serial_num (Sample.coordinator_of Sample.poe_switch) /\
  Sensor.key Sample.poe_power = Sensor.key Sample.poe_power /\
  (3 = 3).
Proof.
  apply (unique_id_determines_device_and_sensor
           (Sample.coordinator_of Sample.poe_switch)
           (Sample.coordinator_of Sample.poe_switch)
           (Sensor.PortEntity Sample.poe_power_port3)
           (Sensor.PortEntity Sample.poe_power_port3)).
  - exact port3_created.
  - exact port3_created.
  - reflexivity.
Defined.

(** ** The port number shown to the user *)

Lemma int_of_str_int (z : Z) : Entities.int_of_str (Py.str_int z) = Some z.
Proof.
  unfold Entities.int_of_str, Py.str_int.
  rewrite NilEmpty.isi, DecimalZ.of_to. reflexivity.
Qed.

Lemma int_of_format_02d (z : Z) : Entities.int_of_str (Py.format_02d z) = Some z.
Proof.
  unfold Py.format_02d.
  destruct (Z.leb_spec 0 z) as [Hlo|Hlo]; simpl; [|apply int_of_str_int].
  destruct (Z.ltb_spec z 10) as [Hhi|Hhi]; [|apply int_of_str_int].
  assert (Hcases : z = 0 \/ z = 1 \/ z = 2 \/ z = 3 \/ z = 4 \/
                   z = 5 \/ z = 6 \/ z = 7 \/ z = 8 \/ z = 9) by lia.
  repeat (destruct Hcases as [-> | Hcases]; [reflexivity|]).
  subst z. reflexivity.
Qed.

Lemma short_string_small_int (s : string) (z : Z) :
  (String.length s <= 1)%nat -> Entities.int_of_str s = Some z -> 0 <= z < 10.
Proof.
  destruct s as [|a [|b rest]]; simpl; intros Hlen H.
  - vm_compute in H. injection H as <-. lia.
  - destruct a as [[] [] [] [] [] [] [] []]; vm_compute in H;
      first [discriminate H | injection H as <-; lia].
  - lia.
Qed.

Lemma length_format_02d (z : Z) : (2 <= String.length (Py.format_02d z))%nat.
Proof.
  destruct (Nat.le_gt_cases 2 (String.length (Py.format_02d z))) as [H|H];
    [exact H|exfalso].
  assert (Hshort : (String.length (Py.format_02d z) <= 1)%nat) by lia.
  pose proof (short_string_small_int _ z Hshort (int_of_format_02d z)) as Hz.
  clear Hshort.
  revert H. unfold Py.format_02d.
  destruct (Z.leb_spec 0 z) as [_|Hneg]; [|lia].
  destruct (Z.ltb_spec z 10) as [_|Hbig]; [|lia].
  simpl. intros H.
  destruct (Py.str_int z) as [|a rest] eqn:E; [|simpl in H; lia].
  pose proof (int_of_str_int z) as Hrt. rewrite E in Hrt.
  assert (Hcases : z = 0 \/ z = 1 \/ z = 2 \/ z = 3 \/ z = 4 \/
                   z = 5 \/ z = 6 \/ z = 7 \/ z = 8 \/ z = 9) by lia.
  repeat (destruct Hcases as [-> | Hcases]; [discriminate E|]).
  subst z. discriminate E.
Qed.

(** X9.  The [port_num] placeholder of a port sensor is the port number
    counted from one, written with at least two characters: read back as an
    integer it gives [port.num + 1], so two ports with different numbers never
    show the same [port_num], while the unique id keeps the number counted
    from zero; [port_name] is the port's name. *)
Theorem port_placeholders_round_trip :
  forall (c : MikrotikSwitchOSCoordinator) (dev : Sensor.DeviceInfo)
         (d : Sensor.MikrotikSwitchOSEntityDescription) (p : Port),
    let s := Sensor.MikrotikSwitchOSPortSensor_init c dev d p in
    (exists text,
       Entities.placeholder (Sensor.attr_translation_placeholders s) "port_num" = Some text /\
       Entities.int_of_str text = Some (num p + 1) /\
       (2 <= String.length text)%nat) /\
    Entities.placeholder (Sensor.attr_translation_placeholders s) "port_name"
      = Some (name p) /\
    (forall p' : Port,
       Entities.placeholder
         (Sensor.attr_translation_placeholders
            (Sensor.MikrotikSwitchOSPortSensor_init c dev d p')) "port_num" =
       Entities.placeholder (Sensor.attr_translation_placeholders s) "port_num" ->
       num p' = num p).
Proof.
  intros c dev d p s. subst s. simpl. split; [|split].
  - exists (Py.format_02d (num p + 1)).
    split; [reflexivity|]. split; [apply int_of_format_02d | apply length_format_02d].
  - reflexivity.
  - intros p' Heq. injection Heq as Heq.
    pose proof (int_of_format_02d (num p' + 1)) as H'.
    rewrite Heq, int_of_format_02d in H'. injection H' as H'. lia.
Qed.

(** ** Reading right after setup *)

(** X10.  Every entity a setup creates can be read on the snapshot it was
    created from, provided no port number is negative: the read raises
    nothing, leaves the coordinator as it was, and for a global sensor the
    value is not [None]. *)
Theorem created_entities_read_on_first_snapshot
    (c : MikrotikSwitchOSCoordinator) (e : Sensor.Entity) :
  (forall p, In p (ports (api c)) -> 0 <= num p) ->
  In e (Init.created c) ->
  exists v,
    Sensor.entity_native_value e c = (Py.ok v, c) /\
    match e with
    | Sensor.GlobalEntity _ => v <> Py.VNone
    | Sensor.PortEntity _ => True
    end.
Proof.
  intros Hports Hin. rewrite created_eq in Hin. apply in_app_or in Hin as [Hin | Hin].
  - apply in_global_entities in Hin as (d & _ & Hex & ->).
    apply global_entity_exists_iff in Hex as (ep & v & Hep & Hv & Hne).
    exists v. simpl. rewrite native_value_run. simpl. rewrite Hep, Hv. auto.
  - apply in_port_entities in Hin as (d & p & _ & Hp & Hex & ->).
    apply port_entity_exists_iff in Hex as (ep & items & Hep & Harr & Hlt).
    destruct (seq_index_in_range items (num p)) as [x Hx];
      [split; [apply Hports, Hp | exact Hlt]|].
    exists x. simpl. rewrite port_native_value_run. simpl. rewrite Hep.
    destruct Harr as [-> | ->]; simpl; rewrite Hx; auto.
Qed.

Lemma created_entities_read_on_first_snapshot_witness :
  exists v,
    Sensor.entity_native_value (Sensor.PortEntity Sample.poe_power_port3)
      (Sample.coordinator_of Sample.poe_switch) =
    (Py.ok v, Sample.coordinator_of Sample.poe_switch) /\ True.
Proof.
  apply (created_entities_read_on_first_snapshot
           (Sample.coordinator_of Sample.poe_switch)
           (Sensor.PortEntity Sample.poe_power_port3)).
  - simpl. intros p Hp.
    repeat (destruct Hp as [<- | Hp]; [simpl; lia|]). destruct Hp.
  - exact port3_created.
Defined.
